(** * Party-planner backend: a shallow embedding of the Express/Mongoose server

    The server is one file of route handlers over a MongoDB store reached
    through Mongoose.  The embedding keeps the shape of that file:

    - the store is a record of collections, each a list of documents in
      natural (insertion) order, so that [findOne] is "first match";
    - a query filter is kept as the object literal the handler writes (a list
      of path/value pairs) and is cast against the model's schema before it is
      matched, as Mongoose does;
    - a handler is a computation in a small state-and-exception monad over
      the store and the response object [res]; [try { } catch { }] is
      [tryCatch], [res.status(c).json(b)] is [status_json c b];
    - everything the handler draws from outside (random bytes, the bcrypt
      salt, a fresh ObjectId, the clock) is an explicit input, [Env].

    Library behaviour that the handlers rely on (Mongoose 6 defaults):
    - [strictQuery]: a filter path that is not in the schema is dropped
      before the query is sent;
    - keys whose value is [undefined] are dropped from an update document;
    - [findByIdAndUpdate] and [findOneAndDelete] return the document as it
      was before the operation;
    - schema setters ([trim]) run when a document is built and when an
      update is cast; validators run on [save] only.
    The handlers are written against these defaults: they look documents up
    by keys such as [userId] and [projectId], which no schema declares, and
    carry on when the lookup finds something; the client sends a body with
    [name] alone, or [due_date] alone, to the field update.

    Inputs are typed as the client sends them: path parameters and body
    fields are strings (a body field may be absent), [phone] is an integer.
    Strings are byte strings; [toLowerCase] and [trim] act on ASCII. *)

From Stdlib Require Import List String Ascii ZArith Bool Lia Arith.
Import ListNotations.
Open Scope string_scope.

(** ** Strings: the JavaScript helpers the handlers use *)

Definition lowerAscii (c : ascii) : ascii :=
  let n := nat_of_ascii c in
  if (65 <=? n)%nat && (n <=? 90)%nat then ascii_of_nat (n + 32) else c.

(** [String.prototype.toLowerCase], on the ASCII letters. *)
Fixpoint toLowerCase (s : string) : string :=
  match s with
  | EmptyString => EmptyString
  | String c r => String (lowerAscii c) (toLowerCase r)
  end.

(** White space as [trim] sees it, restricted to ASCII: TAB, LF, VT, FF, CR
    and the space. *)
Definition isSpace (c : ascii) : bool :=
  let n := nat_of_ascii c in
  ((9 <=? n)%nat && (n <=? 13)%nat) || (n =? 32)%nat.

Fixpoint trimStart (s : string) : string :=
  match s with
  | EmptyString => EmptyString
  | String c r => if isSpace c then trimStart r else s
  end.

(** Drops trailing white space: a character survives when it is not a space
    or when something that survives follows it. *)
Fixpoint trimEnd (s : string) : string :=
  match s with
  | EmptyString => EmptyString
  | String c r =>
      match trimEnd r with
      | EmptyString => if isSpace c then EmptyString else String c EmptyString
      | r' => String c r'
      end
  end.

Definition trim (s : string) : string := trimEnd (trimStart s).

(** ** Hexadecimal text, for [Buffer.toString('hex')] and ObjectIds *)

Definition hexDigit (n : nat) : ascii :=
  match n with
  | 0 => "0" | 1 => "1" | 2 => "2" | 3 => "3" | 4 => "4" | 5 => "5"
  | 6 => "6" | 7 => "7" | 8 => "8" | 9 => "9" | 10 => "a" | 11 => "b"
  | 12 => "c" | 13 => "d" | 14 => "e" | _ => "f"
  end%char.

Definition hexByte (b : ascii) : string :=
  let n := nat_of_ascii b in
  String (hexDigit (n / 16)) (String (hexDigit (n mod 16)) EmptyString).

(** [buf.toString('hex')]: two lower-case digits per byte. *)
Fixpoint toHex (buf : list ascii) : string :=
  match buf with
  | [] => EmptyString
  | b :: r => hexByte b ++ toHex r
  end.

Definition hexValue (c : ascii) : option nat :=
  let n := nat_of_ascii c in
  if (48 <=? n)%nat && (n <=? 57)%nat then Some (n - 48)
  else if (97 <=? n)%nat && (n <=? 102)%nat then Some (n - 87)
  else if (65 <=? n)%nat && (n <=? 70)%nat then Some (n - 55)
  else None.

Definition isHexDigit (c : ascii) : bool :=
  match hexValue c with Some _ => true | None => false end.

Fixpoint allHex (s : string) : bool :=
  match s with
  | EmptyString => true
  | String c r => isHexDigit c && allHex r
  end.


(** [crypto.randomBytes(n)]: the first [n] bytes of the entropy source. *)
Definition randomBytes (n : nat) (rng : nat -> ascii) : list ascii :=
  map rng (seq 0 n).

(** ** ObjectIds *)

(** An ObjectId is kept as its canonical text: 24 lower-case hex digits. *)
Definition ObjectId := string.

(** The driver's [new ObjectId(text)]: 24 hex digits in either case, or any
    12-character string taken as the twelve raw bytes; anything else is
    refused (Mongoose reports a CastError). *)
Definition castObjectId (s : string) : option ObjectId :=
  if (String.length s =? 24)%nat then
    if allHex s then Some (toLowerCase s) else None
  else if (String.length s =? 12)%nat then Some (toHex (list_ascii_of_string s))
  else None.

(** ** JavaScript values, as handed to [res.json] *)

Set Warnings "-register-all".

Inductive value : Type :=
| VNull
| VBool (b : bool)
| VNum (n : Z)
| VStr (s : string)
| VDate (ms : Z)
| VArr (items : list value)
| VObj (props : list (string * value)).

(** [obj[key]], [None] when the key is absent. *)
Fixpoint getProp (key : string) (props : list (string * value)) : option value :=
  match props with
  | [] => None
  | (k, v) :: r => if String.eqb k key then Some v else getProp key r
  end.

Definition optValue {A} (f : A -> value) (o : option A) : value :=
  match o with Some a => f a | None => VNull end.

(** ** Documents *)

Module User.
Record t := mk
  { _id : ObjectId; email : string; password : string; accessToken : string }.

Definition toValue (u : t) : value :=
  VObj [("_id", VStr (_id u)); ("email", VStr (email u));
        ("password", VStr (password u)); ("accessToken", VStr (accessToken u));
        ("__v", VNum 0)].
End User.

Module Theme.
Record t := mk
  { _id : ObjectId; name : string; image : string; type : list string }.

Definition toValue (d : t) : value :=
  VObj [("_id", VStr (_id d)); ("name", VStr (name d)); ("image", VStr (image d));
        ("type", VArr (map VStr (type d))); ("__v", VNum 0)].
End Theme.

(** [DecorationSchema], [FoodSchema], [DrinkSchema] and [ActivitySchema] are
    the same four-path schema; their documents share one record. *)
Module CatalogItem.
Record t := mk
  { _id : ObjectId; name : string; image : string; type : list string;
    belongs_to_themes : list string }.

Definition toValue (d : t) : value :=
  VObj [("_id", VStr (_id d)); ("name", VStr (name d)); ("image", VStr (image d));
        ("type", VArr (map VStr (type d)));
        ("belongs_to_themes", VArr (map VStr (belongs_to_themes d)));
        ("__v", VNum 0)].
End CatalogItem.

Module Guest.
(** Neither path is required: an absent one is [None]. *)
Record t := mk
  { _id : ObjectId; guestName : option string; phone : option Z }.

Definition toValue (g : t) : value :=
  VObj [("_id", VStr (_id g)); ("guestName", optValue VStr (guestName g));
        ("phone", optValue VNum (phone g))].
End Guest.

Module Project.
Record t := mk
  { _id : ObjectId; name : string; userProject : ObjectId; due_date : string;
    createdAt : Z; guestList : list Guest.t;
    themes : list value; decorations : list value; food : list value;
    drinks : list value; activities : list value }.

Definition toValue (p : t) : value :=
  VObj [("_id", VStr (_id p)); ("name", VStr (name p));
        ("userProject", VStr (userProject p)); ("due_date", VStr (due_date p));
        ("createdAt", VDate (createdAt p));
        ("guestList", VArr (map Guest.toValue (guestList p)));
        ("themes", VArr (themes p)); ("decorations", VArr (decorations p));
        ("food", VArr (food p)); ("drinks", VArr (drinks p));
        ("activities", VArr (activities p)); ("__v", VNum 0)].
End Project.

(** ** The store: one list per collection, and the connection state *)

Record Store := mkStore
  { readyState : nat;
    users : list User.t;
    themes : list Theme.t;
    decorations : list CatalogItem.t;
    food : list CatalogItem.t;
    drinks : list CatalogItem.t;
    activities : list CatalogItem.t;
    projects : list Project.t;
    guests : list Guest.t }.

Definition setUsers (l : list User.t) (s : Store) : Store :=
  mkStore (readyState s) l (themes s) (decorations s) (food s) (drinks s)
          (activities s) (projects s) (guests s).
Definition setThemes (l : list Theme.t) (s : Store) : Store :=
  mkStore (readyState s) (users s) l (decorations s) (food s) (drinks s)
          (activities s) (projects s) (guests s).
Definition setDecorations (l : list CatalogItem.t) (s : Store) : Store :=
  mkStore (readyState s) (users s) (themes s) l (food s) (drinks s)
          (activities s) (projects s) (guests s).
Definition setFood (l : list CatalogItem.t) (s : Store) : Store :=
  mkStore (readyState s) (users s) (themes s) (decorations s) l (drinks s)
          (activities s) (projects s) (guests s).
Definition setDrinks (l : list CatalogItem.t) (s : Store) : Store :=
  mkStore (readyState s) (users s) (themes s) (decorations s) (food s) l
          (activities s) (projects s) (guests s).
Definition setActivities (l : list CatalogItem.t) (s : Store) : Store :=
  mkStore (readyState s) (users s) (themes s) (decorations s) (food s) (drinks s)
          l (projects s) (guests s).
Definition setProjects (l : list Project.t) (s : Store) : Store :=
  mkStore (readyState s) (users s) (themes s) (decorations s) (food s) (drinks s)
          (activities s) l (guests s).
Definition setGuests (l : list Guest.t) (s : Store) : Store :=
  mkStore (readyState s) (users s) (themes s) (decorations s) (food s) (drinks s)
          (activities s) (projects s) l.

(** ** Errors, responses and the handler monad *)

Inductive Error : Type :=
| TypeError (message : string)
| ReferenceError (message : string)
| BcryptError (message : string)
| CastError (path : string) (text : string)
| ValidationError (path : string) (kind : string)
| MongoServerError (code : Z) (keyPattern : string)
| HeadersSent.

(** What [JSON.stringify] keeps of an error object: nothing of a plain
    [Error] (its properties are not enumerable), the own fields of a Mongoose
    or driver error. *)
Definition errorValue (e : Error) : value :=
  match e with
  | TypeError _ | ReferenceError _ | BcryptError _ | HeadersSent => VObj []
  | CastError path text =>
      VObj [("name", VStr "CastError"); ("path", VStr path); ("value", VStr text)]
  | ValidationError path kind =>
      VObj [("name", VStr "ValidationError"); ("path", VStr path); ("kind", VStr kind)]
  | MongoServerError code keyPattern =>
      VObj [("code", VNum code);
            ("keyPattern", VObj [(keyPattern, VNum 1)])]
  end.

Record Response := mkResponse { status : nat; body : value }.

(** The state a handler works on: the store and the response object, which
    holds what has been sent so far. *)
Record World := mkWorld { db : Store; res : option Response }.

Inductive Outcome (A : Type) : Type :=
| Ok (a : A)
| Throw (e : Error).
Arguments Ok {A} a.
Arguments Throw {A} e.

Definition M (A : Type) : Type := World -> Outcome A * World.

Definition ret {A} (a : A) : M A := fun w => (Ok a, w).

Definition bind {A B} (m : M A) (k : A -> M B) : M B :=
  fun w =>
    match m w with
    | (Ok a, w') => k a w'
    | (Throw e, w') => (Throw e, w')
    end.

Definition throw {A} (e : Error) : M A := fun w => (Throw e, w).

(** [try { body } catch (error) { handler }]: the effects of [body] up to the
    throw stay. *)
Definition tryCatch {A} (body : M A) (handler : Error -> M A) : M A :=
  fun w =>
    match body w with
    | (Ok a, w') => (Ok a, w')
    | (Throw e, w') => handler e w'
    end.

Definition getDb : M Store := fun w => (Ok (db w), w).
Definition putDb (s : Store) : M unit := fun w => (Ok tt, mkWorld s (res w)).
Definition lift {A} (o : Outcome A) : M A := fun w => (o, w).

Declare Scope handler_scope.
Delimit Scope handler_scope with handler.
Notation "x <- m ;; k" := (bind m (fun x => k))
  (at level 61, m at next level, right associativity) : handler_scope.
Notation "m ;;; k" := (bind m (fun _ => k))
  (at level 61, right associativity) : handler_scope.
Open Scope handler_scope.

(** [res.status(code).json(body)].  Express refuses a second send on the
    same response ("Cannot set headers after they are sent"). *)
Definition status_json (code : nat) (b : value) : M unit :=
  fun w =>
    match res w with
    | None => (Ok tt, mkWorld (db w) (Some (mkResponse code b)))
    | Some _ => (Throw HeadersSent, w)
    end.

(** ** Mongoose: schemas, filters and the query functions *)

Inductive SchemaType : Type := SString | SObjectId | SNumber | SDate | SArray.

(** A value a handler puts in a filter: a path parameter, a header or a body
    field, each a string or [undefined]. *)
Inductive queryValue : Type :=
| QUndefined
| QString (s : string).

Definition ofOption (o : option string) : queryValue :=
  match o with Some s => QString s | None => QUndefined end.

Definition Filter : Type := list (string * queryValue).

(** A filter value after the cast to its path's type. *)
Inductive cond : Type :=
| CNull
| CStr (s : string)
| CId (o : ObjectId)
| CNum (n : Z).

(** What a document holds at a path. *)
Inductive fieldValue : Type :=
| FNull
| FStr (s : string)
| FId (o : ObjectId)
| FNum (n : Z)
| FArr (items : list value).

Fixpoint lookupPath (p : string) (paths : list (string * SchemaType))
  : option SchemaType :=
  match paths with
  | [] => None
  | (q, ty) :: r => if String.eqb q p then Some ty else lookupPath p r
  end.

Fixpoint readDigits (s : string) (acc : Z) : option Z :=
  match s with
  | EmptyString => Some acc
  | String c r =>
      let n := nat_of_ascii c in
      if (48 <=? n)%nat && (n <=? 57)%nat
      then readDigits r (10 * acc + Z.of_nat (n - 48))
      else None
  end.

(** The cast of one filter value.  [undefined] is left alone by Mongoose and
    reaches the server as [null].  No handler filters on a Number or Date
    path; for those the cast reads plain decimal digits only. *)
Definition castForQuery (p : string) (ty : SchemaType) (v : queryValue)
  : Outcome cond :=
  match v with
  | QUndefined => Ok CNull
  | QString s =>
      match ty with
      | SString | SArray => Ok (CStr s)
      | SObjectId =>
          match castObjectId s with
          | Some o => Ok (CId o)
          | None => Throw (CastError p s)
          end
      | SNumber | SDate =>
          match s with
          | EmptyString => Throw (CastError p s)
          | _ => match readDigits s 0 with
                 | Some n => Ok (CNum n)
                 | None => Throw (CastError p s)
                 end
          end
      end
  end.

(** The cast of a filter: a path the schema does not declare is dropped
    ([strictQuery]); a value that cannot be cast throws. *)
Fixpoint castFilter (paths : list (string * SchemaType)) (f : Filter)
  : Outcome (list (string * cond)) :=
  match f with
  | [] => Ok []
  | (p, v) :: r =>
      match lookupPath p paths with
      | None => castFilter paths r
      | Some ty =>
          match castForQuery p ty v, castFilter paths r with
          | Throw e, _ => Throw e
          | Ok _, Throw e => Throw e
          | Ok c, Ok cs => Ok ((p, c) :: cs)
          end
      end
  end.

(** MongoDB's equality match: [null] matches a missing or null field, a
    scalar matches an equal scalar or an array that contains it. *)
Definition matchField (c : cond) (f : fieldValue) : bool :=
  match c, f with
  | CNull, FNull => true
  | CStr s, FStr t => String.eqb s t
  | CStr s, FArr items =>
      existsb (fun v => match v with VStr t => String.eqb s t | _ => false end) items
  | CId a, FId b => String.eqb a b
  | CNum n, FNum m => Z.eqb n m
  | _, _ => false
  end.

Record Model (D : Type) : Type := mkModel
  { paths : list (string * SchemaType);
    field : D -> string -> fieldValue;
    docs : Store -> list D;
    setDocs : list D -> Store -> Store }.
Arguments mkModel {D} _ _ _ _.
Arguments paths {D} _.
Arguments field {D} _ _ _.
Arguments docs {D} _ _.
Arguments setDocs {D} _ _ _.

Definition matches {D} (m : Model D) (cs : list (string * cond)) (d : D) : bool :=
  forallb (fun pc => matchField (snd pc) (field m d (fst pc))) cs.

Fixpoint removeFirst {D} (p : D -> bool) (l : list D) : list D :=
  match l with
  | [] => []
  | d :: r => if p d then r else d :: removeFirst p r
  end.

Fixpoint updateFirst {D} (p : D -> bool) (f : D -> D) (l : list D) : list D :=
  match l with
  | [] => []
  | d :: r => if p d then f d :: r else d :: updateFirst p f r
  end.

(** [Model.find(filter)]: every match, in store order. *)
Definition find {D} (m : Model D) (f : Filter) : M (list D) :=
  cs <- lift (castFilter (paths m) f) ;;
  s <- getDb ;;
  ret (filter (matches m cs) (docs m s)).

(** [Model.findOne(filter)]: the first match or [null]. *)
Definition findOne {D} (m : Model D) (f : Filter) : M (option D) :=
  cs <- lift (castFilter (paths m) f) ;;
  s <- getDb ;;
  ret (List.find (matches m cs) (docs m s)).

(** [Model.findById(id)] is [findOne({ _id: id })]. *)
Definition findById {D} (m : Model D) (id : string) : M (option D) :=
  findOne m [("_id", QString id)].

(** [Model.findOneAndDelete(filter)]: removes the first match and returns it. *)
Definition findOneAndDelete {D} (m : Model D) (f : Filter) : M (option D) :=
  cs <- lift (castFilter (paths m) f) ;;
  s <- getDb ;;
  match List.find (matches m cs) (docs m s) with
  | None => ret None
  | Some d =>
      putDb (setDocs m (removeFirst (matches m cs) (docs m s)) s) ;;;
      ret (Some d)
  end.

(** [Model.findByIdAndUpdate({ _id: id }, update)]: the handlers pass the id
    wrapped in an object; Mongoose casts such an object to the ObjectId of its
    [_id], so the filter is [{ _id: id }].  The update, already cast, is a
    function on the document.  No [new: true] is passed anywhere: the result
    is the document before the update. *)
Definition findByIdAndUpdate {D} (m : Model D) (id : string) (update : D -> D)
  : M (option D) :=
  cs <- lift (castFilter (paths m) [("_id", QString id)]) ;;
  s <- getDb ;;
  match List.find (matches m cs) (docs m s) with
  | None => ret None
  | Some d =>
      putDb (setDocs m (updateFirst (matches m cs) update (docs m s)) s) ;;;
      ret (Some d)
  end.

(** *** The eight models *)

Definition strings (l : list string) : fieldValue := FArr (map VStr l).

Definition UserModel : Model User.t :=
  mkModel
    [("email", SString); ("password", SString); ("accessToken", SString);
     ("_id", SObjectId); ("__v", SNumber)]
    (fun u p =>
       if p =? "email" then FStr (User.email u)
       else if p =? "password" then FStr (User.password u)
       else if p =? "accessToken" then FStr (User.accessToken u)
       else if p =? "_id" then FId (User._id u)
       else if p =? "__v" then FNum 0
       else FNull)
    users setUsers.

Definition ThemeModel : Model Theme.t :=
  mkModel
    [("name", SString); ("image", SString); ("type", SArray);
     ("_id", SObjectId); ("__v", SNumber)]
    (fun d p =>
       if p =? "name" then FStr (Theme.name d)
       else if p =? "image" then FStr (Theme.image d)
       else if p =? "type" then strings (Theme.type d)
       else if p =? "_id" then FId (Theme._id d)
       else if p =? "__v" then FNum 0
       else FNull)
    themes setThemes.

Definition catalogPaths : list (string * SchemaType) :=
  [("name", SString); ("image", SString); ("type", SArray);
   ("belongs_to_themes", SArray); ("_id", SObjectId); ("__v", SNumber)].

Definition catalogField (d : CatalogItem.t) (p : string) : fieldValue :=
  if p =? "name" then FStr (CatalogItem.name d)
  else if p =? "image" then FStr (CatalogItem.image d)
  else if p =? "type" then strings (CatalogItem.type d)
  else if p =? "belongs_to_themes" then strings (CatalogItem.belongs_to_themes d)
  else if p =? "_id" then FId (CatalogItem._id d)
  else if p =? "__v" then FNum 0
  else FNull.

Definition DecorationModel : Model CatalogItem.t :=
  mkModel catalogPaths catalogField decorations setDecorations.
Definition FoodModel : Model CatalogItem.t :=
  mkModel catalogPaths catalogField food setFood.
Definition DrinkModel : Model CatalogItem.t :=
  mkModel catalogPaths catalogField drinks setDrinks.
Definition ActivityModel : Model CatalogItem.t :=
  mkModel catalogPaths catalogField activities setActivities.

Definition GuestModel : Model Guest.t :=
  mkModel
    [("guestName", SString); ("phone", SNumber); ("_id", SObjectId); ("__v", SNumber)]
    (fun g p =>
       if p =? "guestName" then
         match Guest.guestName g with Some s => FStr s | None => FNull end
       else if p =? "phone" then
         match Guest.phone g with Some n => FNum n | None => FNull end
       else if p =? "_id" then FId (Guest._id g)
       else if p =? "__v" then FNum 0
       else FNull)
    guests setGuests.

Definition ProjectModel : Model Project.t :=
  mkModel
    [("name", SString); ("userProject", SObjectId); ("due_date", SString);
     ("createdAt", SDate); ("guestList", SArray); ("themes", SArray);
     ("decorations", SArray); ("food", SArray); ("drinks", SArray);
     ("activities", SArray); ("_id", SObjectId); ("__v", SNumber)]
    (fun d p =>
       if p =? "name" then FStr (Project.name d)
       else if p =? "userProject" then FId (Project.userProject d)
       else if p =? "due_date" then FStr (Project.due_date d)
       else if p =? "createdAt" then FNum (Project.createdAt d)
       else if p =? "guestList" then FArr (map Guest.toValue (Project.guestList d))
       else if p =? "themes" then FArr (Project.themes d)
       else if p =? "decorations" then FArr (Project.decorations d)
       else if p =? "food" then FArr (Project.food d)
       else if p =? "drinks" then FArr (Project.drinks d)
       else if p =? "activities" then FArr (Project.activities d)
       else if p =? "_id" then FId (Project._id d)
       else if p =? "__v" then FNum 0
       else FNull)
    projects setProjects.

(** ** Requests and what the server draws from outside *)

Inductive Collection : Type := Themes | Decorations | Drinks | Food | Activities.

(** A routed request: the route Express matched, its path parameters and
    the JSON body fields the handler reads.  A body field is a string or
    absent ([None], JavaScript's [undefined]); [phone] is a number. *)
Inductive Route : Type :=
| GetRoot
| PostSignUp (email password : option string)
| PostSignIn (email password : option string)
| DeleteAccount (userId : string)
| PatchPassword (userId : string) (password : option string)
| GetCollection (c : Collection)
| GetThemeById (id : string)
| GetByType (c : Collection) (type : string)
| GetProjects (userId : string)
| GetSingleProject (userId projectId : string)
| PostAddProject (userId : string) (name due_date : option string)
| PatchProject (userId projectId : string) (name due_date : option string)
| PostAddGuest (userId projectId : string) (guestName : option string)
               (phone : option Z)
| DeleteGuest (userId projectId guestId : string)
| DeleteProject (userId projectId : string)
| GetProjectBoard (userId : string).

Record Request := mkRequest
  { authorization : option string;   (* req.header('Authorization') *)
    route : Route }.

Record Env := mkEnv
  { rng : nat -> ascii;      (* the bytes crypto.randomBytes hands out *)
    salt : string;           (* bcrypt.genSaltSync() *)
    newId : ObjectId;        (* the _id given to a document built here *)
    now : Z }.               (* new Date() *)

(** An array is an object: every array, empty or not, is truthy. *)
Definition truthyArray {A} (l : list A) : bool := true.

(** ** Saving documents: validators, then the insert with its unique indexes *)

(** [UserSchema]: [email] and [password] required, [password] at least 8
    characters, [email] unique.  The server keeps [_id] unique as well. *)
Definition saveUser (u : User.t) : M User.t :=
  if User.email u =? "" then throw (ValidationError "email" "required")
  else if User.password u =? "" then throw (ValidationError "password" "required")
  else if (String.length (User.password u) <? 8)%nat
       then throw (ValidationError "password" "minlength")
  else
    s <- getDb ;;
    if existsb (fun v => User._id v =? User._id u) (users s)
    then throw (MongoServerError 11000 "_id")
    else if existsb (fun v => User.email v =? User.email u) (users s)
    then throw (MongoServerError 11000 "email")
    else putDb (setUsers (users s ++ [u]) s) ;;; ret u.

(** [new Project({ name, due_date, userProject: userId }).save()].
    [name] is trimmed by its setter, then required and between 5 and 30
    characters; [due_date] defaults to the placeholder; [userProject] must
    cast to an ObjectId; the arrays default to empty. *)
Definition saveProject (env : Env) (name due_date : option string)
  (userId : string) : M Project.t :=
  match name with
  | None => throw (ValidationError "name" "required")
  | Some n =>
      let n' := trim n in
      if n' =? "" then throw (ValidationError "name" "required")
      else if (String.length n' <? 5)%nat
           then throw (ValidationError "name" "minlength")
      else if (30 <? String.length n')%nat
           then throw (ValidationError "name" "maxlength")
      else
        match castObjectId userId with
        | None => throw (ValidationError "userProject" "ObjectId")
        | Some owner =>
            let p := Project.mk (newId env) n' owner
                       (match due_date with Some d => d | None => "YY-MM-DD" end)
                       (now env) [] [] [] [] [] [] in
            s <- getDb ;;
            if existsb (fun q => Project._id q =? Project._id p) (projects s)
            then throw (MongoServerError 11000 "_id")
            else putDb (setProjects (projects s ++ [p]) s) ;;; ret p
        end
  end.

(** [new Guest({ guestName, phone })]: the name is trimmed by its setter. *)
Definition newGuest (env : Env) (guestName : option string) (phone : option Z)
  : Guest.t :=
  Guest.mk (newId env) (option_map trim guestName) phone.

(** The update [{ $set: { name: name, due_date: due_date } }] after the cast:
    a key whose value is [undefined] is dropped, [name] goes through its
    [trim] setter, no validator runs. *)
Definition setNameDueDate (name due_date : option string) (p : Project.t)
  : Project.t :=
  Project.mk (Project._id p)
    (match name with Some n => trim n | None => Project.name p end)
    (Project.userProject p)
    (match due_date with Some d => d | None => Project.due_date p end)
    (Project.createdAt p) (Project.guestList p) (Project.themes p)
    (Project.decorations p) (Project.food p) (Project.drinks p)
    (Project.activities p).

(** The update [{ $push: { guestList: guest } }]. *)
Definition pushGuest (g : Guest.t) (p : Project.t) : Project.t :=
  Project.mk (Project._id p) (Project.name p) (Project.userProject p)
    (Project.due_date p) (Project.createdAt p) (Project.guestList p ++ [g])
    (Project.themes p) (Project.decorations p) (Project.food p)
    (Project.drinks p) (Project.activities p).

(** The update [{ $set: { password: newPassword } }]. *)
Definition setPassword (newPassword : string) (u : User.t) : User.t :=
  User.mk (User._id u) (User.email u) newPassword (User.accessToken u).

(** ** Middlewares *)

(** The connection check placed before every route. *)
Definition requireConnection (next : M unit) : M unit :=
  s <- getDb ;;
  if (readyState s =? 1)%nat then next
  else status_json 503
         (VObj [("status_code", VNum 503); ("error", VStr "Server unavailable")]).

(** [authenticateUser].  [next()] only starts the route handler: what that
    handler throws is not caught here, so it runs after the [try]. *)
Definition authenticateUser (req : Request) (next : M unit) : M unit :=
  let accessToken := ofOption (authorization req) in
  proceed <-
    tryCatch
      (user <- findOne UserModel [("accessToken", accessToken)] ;;
       match user with
       | Some _ => ret true
       | None =>
           status_json 401
             (VObj [("response", VStr "Please log in"); ("success", VBool false)]) ;;;
           ret false
       end)
      (fun error =>
         status_json 500
           (VObj [("response", errorValue error); ("success", VBool false)]) ;;;
         ret false) ;;
  if proceed then next else ret tt.

(** ** The route handlers *)

Section Server.

(** bcrypt is taken as given: [hashSync password salt] and
    [compareSync password hash]. *)
Variable hashSync : string -> string -> string.
Variable compareSync : string -> string -> bool.

(** [bcrypt.compareSync] and [bcrypt.hashSync] throw when the data
    argument is [undefined]. *)
Definition compareSyncM (password : option string) (hash : string) : M bool :=
  match password with
  | Some pw => ret (compareSync pw hash)
  | None => throw (BcryptError "data and hash arguments required")
  end.

Definition hashSyncM (password : option string) (s : string) : M string :=
  match password with
  | Some pw => ret (hashSync pw s)
  | None => throw (BcryptError "data and salt arguments required")
  end.

(** [email === '']. *)
Definition isEmptyString (email : option string) : bool :=
  match email with
  | Some e => e =? ""
  | None => false
  end.

Definition isSome {A} (o : option A) : bool :=
  match o with Some _ => true | None => false end.

(** [error.code === 11000 && error.keyPattern[path]]. *)
Definition duplicateKeyOn (path : string) (error : Error) : bool :=
  match error with
  | MongoServerError code keyPattern => (code =? 11000)%Z && (keyPattern =? path)
  | _ => false
  end.

(** POST /signUp *)
Definition signUp (env : Env) (email password : option string) : M unit :=
  tryCatch
    (match password with
     | None => throw (TypeError "Cannot read properties of undefined (reading 'length')")
     | Some pw =>
         if (String.length pw <? 8)%nat then
           status_json 400
             (VObj [("response", VStr "Password must be minimum 8 characters");
                    ("success", VBool false)])
         else
           match email with
           | None =>
               throw (TypeError "Cannot read properties of undefined (reading 'toLowerCase')")
           | Some em =>
               newUser <- saveUser
                            (User.mk (newId env) (toLowerCase em)
                               (hashSync pw (salt env))
                               (toHex (randomBytes 128 (rng env)))) ;;
               status_json 201
                 (VObj [("response",
                         VObj [("email", VStr (User.email newUser));
                               ("accessToken", VStr (User.accessToken newUser));
                               ("userId", VStr (User._id newUser))]);
                        ("success", VBool true)])
           end
     end)
    (fun error =>
       userExists <- findOne UserModel [("email", ofOption email)] ;;
       if isEmptyString email then
         status_json 400
           (VObj [("response", VStr "Please enter an email");
                  ("error", errorValue error); ("success", VBool false)])
       else if isSome userExists then
         status_json 400
           (VObj [("response", VStr "User already exists");
                  ("success", VBool false)])
       else if duplicateKeyOn "email" error then
         status_json 400
           (VObj [("response", VStr "User already exists");
                  ("error", errorValue error); ("success", VBool false)])
       else
         status_json 400
           (VObj [("response", errorValue error); ("success", VBool false)])).

(** POST /signIn *)
Definition signIn (email password : option string) : M unit :=
  tryCatch
    (user <- findOne UserModel [("email", ofOption email)] ;;
     matched <- match user with
                | Some u => compareSyncM password (User.password u)
                | None => ret false
                end ;;
     match user, matched with
     | Some u, true =>
         status_json 201
           (VObj [("success", VBool true);
                  ("response",
                   VObj [("userId", VStr (User._id u));
                         ("email", VStr (User.email u));
                         ("accessToken", VStr (User.accessToken u))])])
     | _, _ =>
         status_json 400
           (VObj [("success", VBool false);
                  ("response", VStr "Credentials did not match")])
     end)
    (fun error =>
       status_json 500
         (VObj [("success", VBool false);
                ("response", VStr "oops something went wrong");
                ("error", errorValue error)])).

(** DELETE /:userId/admin/delete *)
Definition adminDelete (userId : string) : M unit :=
  tryCatch
    (user <- findOneAndDelete UserModel [("userId", QString userId)] ;;
     match user with
     | Some _ =>
         status_json 200
           (VObj [("success", VBool true); ("response", VStr "Account removed :(")])
     | None =>
         status_json 400
           (VObj [("success", VBool false); ("response", VStr "User not found")])
     end)
    (fun error =>
       status_json 500
         (VObj [("success", VBool false); ("response", errorValue error)])).

(** PATCH /:userId/admin/change *)
Definition adminChange (env : Env) (userId : string) (password : option string)
  : M unit :=
  tryCatch
    (user <- findOne UserModel [("userId", QString userId)] ;;
     match user with
     | Some _ =>
         newPassword <- hashSyncM password (salt env) ;;
         updateUser <- findByIdAndUpdate UserModel userId (setPassword newPassword) ;;
         status_json 200
           (VObj [("success", VBool true);
                  ("data", optValue User.toValue updateUser);
                  ("response", VStr "Password changed")])
     | None =>
         status_json 400
           (VObj [("success", VBool false); ("response", VStr "User not found")])
     end)
    (fun error =>
       status_json 500
         (VObj [("success", VBool false); ("response", errorValue error)])).

(** GET /themes, /decorations, /drinks, /food, /activities: the five
    handlers differ in the model they read and in the text of the error. *)
Definition listAll {D} (m : Model D) (toValue : D -> value) (message : string)
  : M unit :=
  tryCatch
    (collection <- find m [] ;;
     status_json 200
       (VObj [("response", VArr (map toValue collection)); ("success", VBool true)]))
    (fun error =>
       status_json 400
         (VObj [("response", VStr message); ("success", VBool false)])).

(** GET /themes/:id *)
Definition themeById (id : string) : M unit :=
  tryCatch
    (themeId <- findById ThemeModel id ;;
     match themeId with
     | Some t =>
         status_json 200
           (VObj [("success", VBool true); ("theme", Theme.toValue t)])
     | None =>
         status_json 404
           (VObj [("success", VBool false); ("status_code", VNum 404);
                  ("error", VStr "Id not found, try another")])
     end)
    (fun err =>
       status_json 400
         (VObj [("success", VBool false); ("status_code", VNum 400);
                ("error", VStr "Invalid id")])).

(** GET /themes/type/:type and its four siblings. *)
Definition listByType {D} (m : Model D) (toValue : D -> value)
  (message : string) (type : string) : M unit :=
  tryCatch
    (typeOf <- find m [("type", QString type)] ;;
     if negb (truthyArray typeOf) then
       status_json 400
         (VObj [("response", VStr "not found"); ("success", VBool false)])
     else
       status_json 200
         (VObj [("response", VArr (map toValue typeOf)); ("success", VBool true)]))
    (fun error =>
       status_json 400
         (VObj [("response", VStr message); ("success", VBool false)])).

Definition getCollection (c : Collection) : M unit :=
  match c with
  | Themes =>
      listAll ThemeModel Theme.toValue "Can't find any themes options right now"
  | Decorations =>
      listAll DecorationModel CatalogItem.toValue
        "Can't find any decorations options right now"
  | Drinks =>
      listAll DrinkModel CatalogItem.toValue "Can't find any drinks option right now"
  | Food =>
      listAll FoodModel CatalogItem.toValue "Can't find any food options right now"
  | Activities =>
      listAll ActivityModel CatalogItem.toValue
        "Can't find any activities options right now"
  end.

Definition getByType (c : Collection) (type : string) : M unit :=
  match c with
  | Themes =>
      listByType ThemeModel Theme.toValue
        "Can't find any activities options for your type right now" type
  | Decorations =>
      listByType DecorationModel CatalogItem.toValue
        "Can't find any decorations options for your type right now" type
  | Drinks =>
      listByType DrinkModel CatalogItem.toValue
        "Can't find any drinks options for your type right now" type
  | Food =>
      listByType FoodModel CatalogItem.toValue
        "Can't find any food options for your type right now" type
  | Activities =>
      listByType ActivityModel CatalogItem.toValue
        "Can't find any Activity options for your type right now" type
  end.

(** GET /:userId/project-board/projects.  The query is awaited before the
    [try]: what it throws leaves the handler uncaught. *)
Definition listProjects (userId : string) : M unit :=
  allProjects <- find ProjectModel [("userProject", QString userId)] ;;
  tryCatch
    (if truthyArray allProjects then
       status_json 200
         (VObj [("response", VArr (map Project.toValue allProjects));
                ("success", VBool true)])
     else if (List.length allProjects =? 0)%nat then
       status_json 200
         (VObj [("response", VStr "Could not find any projects!");
                ("success", VBool false)])
     else ret tt)
    (fun error =>
       status_json 404
         (VObj [("response", VStr "Could not find any projects!");
                ("success", VBool false)])).

(** GET /:userId/project-board/projects/:projectId *)
Definition singleProject (userId projectId : string) : M unit :=
  tryCatch
    (singleProject <- find ProjectModel
                        [("projectId", QString projectId);
                         ("userProject", QString userId)] ;;
     if truthyArray singleProject then
       status_json 200
         (VObj [("response", VStr "Everything is ok"); ("success", VBool true);
                ("data", VArr (map Project.toValue singleProject))])
     else
       status_json 404
         (VObj [("response", VStr "Could not find project");
                ("success", VBool false)]))
    (fun error =>
       status_json 400
         (VObj [("response", errorValue error); ("success", VBool false)])).

(** POST /:userId/project-board/projects/addProject *)
Definition addProject (env : Env) (userId : string) (name due_date : option string)
  : M unit :=
  tryCatch
    (newProject <- saveProject env name due_date userId ;;
     status_json 200
       (VObj [("success", VBool true); ("response", Project.toValue newProject)]))
    (fun error =>
       status_json 400
         (VObj [("success", VBool false); ("response", VStr "Project failed to add");
                ("error", errorValue error)])).

(** PATCH /:userId/project-board/projects/:projectId.  After the response
    the handler logs [guestList], a name that is not declared there: the
    ReferenceError lands in the [catch], whose own send is refused. *)
Definition changeProject (userId projectId : string)
  (name due_date : option string) : M unit :=
  tryCatch
    (projectToChange <- findOne ProjectModel
                          [("userId", QString userId);
                           ("projectId", QString projectId)] ;;
     match projectToChange with
     | Some _ =>
         updatedProject <- findByIdAndUpdate ProjectModel projectId
                             (setNameDueDate name due_date) ;;
         status_json 200
           (VObj [("response", VStr "Updated");
                  ("data", optValue Project.toValue updatedProject)]) ;;;
         throw (ReferenceError "guestList is not defined")
     | None =>
         status_json 500 (VObj [("response", VStr "Could not update")])
     end)
    (fun error =>
       status_json 401
         (VObj [("response", VStr "Invalid credentials"); ("success", VBool false);
                ("error", errorValue error)])).

(** POST /:userId/project-board/projects/:projectId/addGuest *)
Definition addGuest (env : Env) (userId projectId : string)
  (guestName : option string) (phone : option Z) : M unit :=
  tryCatch
    (user <- find UserModel [("userId", QString userId)] ;;
     projectToChange <- findOne ProjectModel [("projectId", QString projectId)] ;;
     match projectToChange with
     | Some _ =>
         addedGuest <- findByIdAndUpdate ProjectModel projectId
                         (pushGuest (newGuest env guestName phone)) ;;
         status_json 200
           (VObj [("response", VStr "Guest added");
                  ("data", optValue Project.toValue addedGuest)])
     | None =>
         status_json 500 (VObj [("response", VStr "Could not update")])
     end)
    (fun error =>
       status_json 401
         (VObj [("response", VStr "Invalid credentials"); ("success", VBool false);
                ("error", errorValue error)])).

(** DELETE /:userId/project-board/projects/:projectId/delete/:guestId *)
Definition deleteGuest (userId projectId guestId : string) : M unit :=
  tryCatch
    (user <- find UserModel [("userId", QString userId)] ;;
     guestToDelete <- findOneAndDelete GuestModel [("projectId", QString projectId)] ;;
     match truthyArray user, guestToDelete with
     | true, Some _ =>
         status_json 200
           (VObj [("response", VStr "Guest has been deleted");
                  ("success", VBool true)])
     | _, _ =>
         status_json 404
           (VObj [("response", VStr "Guest not found"); ("success", VBool false)])
     end)
    (fun error =>
       status_json 401
         (VObj [("response", VStr "Invalid credentials"); ("success", VBool false)])).

(** DELETE /:userId/project-board/projects/delete/:projectId *)
Definition deleteProject (userId projectId : string) : M unit :=
  tryCatch
    (user <- find UserModel [("userId", QString userId)] ;;
     projectToDelete <- findOneAndDelete ProjectModel
                          [("projectId", QString projectId)] ;;
     match truthyArray user, projectToDelete with
     | true, Some _ =>
         status_json 200
           (VObj [("response", VStr "Project has been deleted");
                  ("success", VBool true)])
     | _, _ =>
         status_json 404
           (VObj [("response", VStr "Project not found"); ("success", VBool false)])
     end)
    (fun error =>
       status_json 401
         (VObj [("response", VStr "Invalid credentials"); ("success", VBool false)])).

(** GET /:userId/project-board: nothing is sent when no user is found. *)
Definition projectBoard (userId : string) : M unit :=
  tryCatch
    (user <- findOne UserModel [("userId", QString userId)] ;;
     match user with
     | Some _ =>
         status_json 200
           (VObj [("response", VStr "Welcome back"); ("success", VBool true)])
     | None => ret tt
     end)
    (fun error =>
       status_json 401
         (VObj [("response", VStr "Invalid credentials"); ("success", VBool false)])).

(** GET /: [res.send(getEndpoints(app))], the list of registered routes. *)
Definition endpoint (path : string) (methods middlewares : list string) : value :=
  VObj [("path", VStr path); ("methods", VArr (map VStr methods));
        ("middlewares", VArr (map VStr middlewares))].

Definition getEndpoints : list value :=
  let open := ["anonymous"] in
  let protected := ["authenticateUser"; "anonymous"] in
  [ endpoint "/" ["GET"] open;
    endpoint "/signUp" ["POST"] open;
    endpoint "/signIn" ["POST"] open;
    endpoint "/:userId/admin/delete" ["DELETE"] protected;
    endpoint "/:userId/admin/change" ["PATCH"] protected;
    endpoint "/themes" ["GET"] protected;
    endpoint "/themes/:id" ["GET"] protected;
    endpoint "/themes/type/:type" ["GET"] protected;
    endpoint "/decorations" ["GET"] protected;
    endpoint "/decorations/type/:type" ["GET"] protected;
    endpoint "/drinks" ["GET"] protected;
    endpoint "/drinks/type/:type" ["GET"] protected;
    endpoint "/food" ["GET"] protected;
    endpoint "/food/type/:type" ["GET"] protected;
    endpoint "/activities" ["GET"] protected;
    endpoint "/activities/type/:type" ["GET"] protected;
    endpoint "/:userId/project-board/projects" ["GET"] protected;
    endpoint "/:userId/project-board/projects/:projectId" ["GET"; "PATCH"] protected;
    endpoint "/:userId/project-board/projects/addProject" ["POST"] protected;
    endpoint "/:userId/project-board/projects/:projectId/addGuest" ["POST"] protected;
    endpoint "/:userId/project-board/projects/:projectId/delete/:guestId"
      ["DELETE"] protected;
    endpoint "/:userId/project-board/projects/delete/:projectId" ["DELETE"] protected;
    endpoint "/:userId/project-board" ["GET"] protected ].

Definition root : M unit := status_json 200 (VArr getEndpoints).

(** The routes as registered: which handler, and whether
    [authenticateUser] stands before it. *)
Definition handle (env : Env) (req : Request) : M unit :=
  match route req with
  | GetRoot => root
  | PostSignUp email password => signUp env email password
  | PostSignIn email password => signIn email password
  | DeleteAccount userId => authenticateUser req (adminDelete userId)
  | PatchPassword userId password =>
      authenticateUser req (adminChange env userId password)
  | GetCollection c => authenticateUser req (getCollection c)
  | GetThemeById id => authenticateUser req (themeById id)
  | GetByType c type => authenticateUser req (getByType c type)
  | GetProjects userId => authenticateUser req (listProjects userId)
  | GetSingleProject userId projectId =>
      authenticateUser req (singleProject userId projectId)
  | PostAddProject userId name due_date =>
      authenticateUser req (addProject env userId name due_date)
  | PatchProject userId projectId name due_date =>
      changeProject userId projectId name due_date
  | PostAddGuest userId projectId guestName phone =>
      authenticateUser req (addGuest env userId projectId guestName phone)
  | DeleteGuest userId projectId guestId =>
      authenticateUser req (deleteGuest userId projectId guestId)
  | DeleteProject userId projectId =>
      authenticateUser req (deleteProject userId projectId)
  | GetProjectBoard userId => authenticateUser req (projectBoard userId)
  end.

(** One request against a store: the connection check, then the route. *)
Definition serve (env : Env) (req : Request) (s : Store) : Outcome unit * World :=
  requireConnection (handle env req) (mkWorld s None).

End Server.

(** What came of a request: the response sent, if any, and the store left. *)
Definition sent (r : Outcome unit * World) : option Response := res (snd r).
Definition storeAfter (r : Outcome unit * World) : Store := db (snd r).
Definition uncaught (r : Outcome unit * World) : option Error :=
  match fst r with Ok _ => None | Throw e => Some e end.

(** The envelope: an object with a boolean [success] and a [response]. *)
Definition hasSuccess (b : value) : bool :=
  match b with
  | VObj props => match getProp "success" props with
                  | Some (VBool _) => true
                  | _ => false
                  end
  | _ => false
  end.

Definition hasResponse (b : value) : bool :=
  match b with
  | VObj props => match getProp "response" props with
                  | Some _ => true
                  | None => false
                  end
  | _ => false
  end.

Definition isEnvelope (b : value) : bool := hasSuccess b && hasResponse b.

Definition succeeded (r : Outcome unit * World) : bool :=
  match sent r with
  | Some (mkResponse _ (VObj props)) =>
      match getProp "success" props with
      | Some (VBool true) => true
      | _ => false
      end
  | _ => false
  end.

(** A stand-in for bcrypt, to run the handlers on concrete inputs: the
    "hash" is the salt followed by the password. *)
Definition demoHashSync (password s : string) : string := s ++ password.
Definition demoCompareSync (password hash : string) : bool :=
  String.eqb (substring (String.length hash - String.length password)
                (String.length password) hash) password.

(** ** Vocabulary of the statements *)

(** The token carried by the request is the token of a stored user. *)
Definition authenticated (auth : option string) (s : Store) : bool :=
  match auth with
  | Some token => existsb (fun u => token =? User.accessToken u) (users s)
  | None => false
  end.

(** The response of [authenticateUser] to an unknown token. *)
Definition pleaseLogIn : Response :=
  mkResponse 401 (VObj [("response", VStr "Please log in"); ("success", VBool false)]).

(** The routes registered with [authenticateUser] in front. *)
Definition protected (r : Route) : bool :=
  match r with
  | GetRoot | PostSignUp _ _ | PostSignIn _ _ | PatchProject _ _ _ _ => false
  | _ => true
  end.

(** A small store to run requests on: two accounts, one project of the
    second account. *)
Definition alice : User.t :=
  User.mk "aaaaaaaaaaaaaaaaaaaaaaaa" "a@b.com" "$2b$10$saltpassword1" "token-of-alice".
Definition bob : User.t :=
  User.mk "bbbbbbbbbbbbbbbbbbbbbbbb" "c@d.com" "$2b$10$saltpassword2" "token-of-bob".
Definition party : Project.t :=
  Project.mk "cccccccccccccccccccccccc" "Birthday Bash" "bbbbbbbbbbbbbbbbbbbbbbbb"
    "2024-05-01" 0 [] [] [] [] [] [].
Definition pirates : Theme.t :=
  Theme.mk "111111111111111111111111" "Pirates" "pirates.png" ["kids"; "outdoor"].
Definition mojito : CatalogItem.t :=
  CatalogItem.mk "222222222222222222222222" "Mojito" "mojito.png"
    ["alcoholic"; "summer"] ["Tropical"].
Definition demoStore : Store :=
  mkStore 1 [alice; bob] [pirates] [] [] [mojito] [] [party] [].
Definition demoEnv : Env :=
  mkEnv (fun n => ascii_of_nat n) "$2b$10$salt" "dddddddddddddddddddddddd" 42.

(** The type tags of the items of a catalog collection. *)
Definition tagsOf (c : Collection) (s : Store) : list (list string) :=
  match c with
  | Themes => map Theme.type (themes s)
  | Decorations => map CatalogItem.type (decorations s)
  | Drinks => map CatalogItem.type (drinks s)
  | Food => map CatalogItem.type (food s)
  | Activities => map CatalogItem.type (activities s)
  end.

(** The guest the demo environment builds from [{ guestName: "Sam", phone: 5551234 }]. *)
Definition sam : Guest.t := newGuest demoEnv (Some "Sam") (Some 5551234%Z).

(** A project with one field replaced and every other field kept. *)
Definition withName (n : string) (p : Project.t) : Project.t :=
  Project.mk (Project._id p) n (Project.userProject p) (Project.due_date p)
    (Project.createdAt p) (Project.guestList p) (Project.themes p)
    (Project.decorations p) (Project.food p) (Project.drinks p)
    (Project.activities p).

Definition withDueDate (d : string) (p : Project.t) : Project.t :=
  Project.mk (Project._id p) (Project.name p) (Project.userProject p) d
    (Project.createdAt p) (Project.guestList p) (Project.themes p)
    (Project.decorations p) (Project.food p) (Project.drinks p)
    (Project.activities p).

Definition withGuestList (g : list Guest.t) (p : Project.t) : Project.t :=
  Project.mk (Project._id p) (Project.name p) (Project.userProject p)
    (Project.due_date p) (Project.createdAt p) g (Project.themes p)
    (Project.decorations p) (Project.food p) (Project.drinks p)
    (Project.activities p).

(** The one failure response of sign-in. *)
Definition credentialsDidNotMatch : Response :=
  mkResponse 400
    (VObj [("success", VBool false); ("response", VStr "Credentials did not match")]).

(** The routes whose every response is an envelope.  The route list, the
    theme lookup by id, the project field update and add-guest are not among
    them. *)
Definition enveloped (r : Route) : bool :=
  match r with
  | GetRoot | GetThemeById _ | PatchProject _ _ _ _ | PostAddGuest _ _ _ _ => false
  | _ => true
  end.

(** The routes that answer every request.  The project list awaits its query
    outside the [try]. *)
Definition answers (r : Route) : bool :=
  match r with
  | GetProjects _ => false
  | _ => true
  end.

(** The store with the connection down. *)
Definition offlineStore : Store := mkStore 0 [alice; bob] [pirates] [] [] [mojito] [] [party] [].

(** The response of the connection check when the connection is down. *)
Definition serverUnavailable : Response :=
  mkResponse 503
    (VObj [("status_code", VNum 503); ("error", VStr "Server unavailable")]).

(** The routes whose handlers only read. *)
Definition readOnly (r : Route) : bool :=
  match r with
  | GetRoot | PostSignIn _ _ | GetCollection _ | GetThemeById _ | GetByType _ _
  | GetProjects _ | GetSingleProject _ _ | GetProjectBoard _ => true
  | _ => false
  end.

(** An item carries the tag. *)
Definition hasTag (tag : string) (tags : list string) : bool :=
  existsb (String.eqb tag) tags.

(** The documents of a catalog collection, as they go into a response. *)
Definition allItems (c : Collection) (s : Store) : list value :=
  match c with
  | Themes => map Theme.toValue (themes s)
  | Decorations => map CatalogItem.toValue (decorations s)
  | Drinks => map CatalogItem.toValue (drinks s)
  | Food => map CatalogItem.toValue (food s)
  | Activities => map CatalogItem.toValue (activities s)
  end.

(** Those of them whose type list holds the tag, in store order. *)
Definition taggedItems (c : Collection) (tag : string) (s : Store) : list value :=
  match c with
  | Themes =>
      map Theme.toValue (filter (fun d => hasTag tag (Theme.type d)) (themes s))
  | Decorations =>
      map CatalogItem.toValue
        (filter (fun d => hasTag tag (CatalogItem.type d)) (decorations s))
  | Drinks =>
      map CatalogItem.toValue
        (filter (fun d => hasTag tag (CatalogItem.type d)) (drinks s))
  | Food =>
      map CatalogItem.toValue
        (filter (fun d => hasTag tag (CatalogItem.type d)) (food s))
  | Activities =>
      map CatalogItem.toValue
        (filter (fun d => hasTag tag (CatalogItem.type d)) (activities s))
  end.

(** The projects of one owner, in store order. *)
Definition ownedBy (o : ObjectId) (s : Store) : list Project.t :=
  filter (fun p => o =? Project.userProject p) (projects s).

(** The name bounds of the project schema. *)
Definition nameInBounds (p : Project.t) : Prop :=
  5 <= String.length (Project.name p) <= 30.

Definition isFieldUpdate (r : Route) : bool :=
  match r with
  | PatchProject _ _ _ _ => true
  | _ => false
  end.


(** Express tries the routes in the order of their registration and compares
    the fixed segments of a path without regard to letter case.
    GET /themes/project-board is taken by /themes/:id, registered before
    /:userId/project-board, which answers it and never calls [next]: the
    project board is reached with every [userId] but "themes". *)
Definition reachesProjectBoard (userId : string) : bool :=
  negb (toLowerCase userId =? "themes").

(** ** Lists and the query functions *)

Lemma find_existsb {A} (p : A -> bool) (l : list A) :
  existsb p l = match List.find p l with Some _ => true | None => false end.
Proof.
  induction l as [|a l IH]; simpl; [reflexivity|].
  destruct (p a); simpl; auto.
Qed.

Lemma find_pointwise {A} (p q : A -> bool) (l : list A) :
  (forall a, p a = q a) -> List.find p l = List.find q l.
Proof.
  intros E. induction l as [|a l IH]; simpl; [reflexivity|].
  rewrite E, IH. reflexivity.
Qed.

Lemma filter_pointwise {A} (p q : A -> bool) (l : list A) :
  (forall a, p a = q a) -> filter p l = filter q l.
Proof. intros E. apply filter_ext. exact E. Qed.

Lemma updateFirst_pointwise {A} (p q : A -> bool) (f : A -> A) (l : list A) :
  (forall a, p a = q a) -> updateFirst p f l = updateFirst q f l.
Proof.
  intros E. induction l as [|a l IH]; simpl; [reflexivity|].
  rewrite E, IH. reflexivity.
Qed.

Lemma removeFirst_pointwise {A} (p q : A -> bool) (l : list A) :
  (forall a, p a = q a) -> removeFirst p l = removeFirst q l.
Proof.
  intros E. induction l as [|a l IH]; simpl; [reflexivity|].
  rewrite E, IH. reflexivity.
Qed.

Lemma find_all {A} (l : list A) : List.find (fun _ => true) l = hd_error l.
Proof. destruct l; reflexivity. Qed.

Lemma removeFirst_all {A} (l : list A) : removeFirst (fun _ => true) l = tl l.
Proof. destruct l; reflexivity. Qed.

Lemma filter_all {A} (l : list A) : filter (fun _ => true) l = l.
Proof. induction l as [|a l IH]; simpl; congruence. Qed.

(** The first match splits the list, and [updateFirst] rewrites it in place. *)
Lemma updateFirst_split {A} (p : A -> bool) (l : list A) (d : A) :
  List.find p l = Some d ->
  exists before after,
    l = (before ++ d :: after)%list /\
    (forall x, In x before -> p x = false) /\
    forall f, updateFirst p f l = (before ++ f d :: after)%list.
Proof.
  induction l as [|a l IH]; simpl; [discriminate|].
  destruct (p a) eqn:Pa.
  - intros E. inversion E; subst. exists [], l. simpl. intuition.
  - intros E. destruct (IH E) as (b & c & E1 & E2 & E3).
    exists (a :: b), c. simpl. rewrite <- E1. repeat split.
    + intros x [<-|I]; auto.
    + intros f. rewrite E3. reflexivity.
Qed.

(** Unfolds the monad and the query functions of a handler. *)
Ltac run :=
  cbv beta iota delta
    [tryCatch bind lift getDb putDb ret throw status_json find findOne findById
     findOneAndDelete findByIdAndUpdate compareSyncM hashSyncM];
  simpl.

(** ** The middlewares *)

Lemma matches_token (token : string) (u : User.t) :
  matches UserModel [("accessToken", CStr token)] u = (token =? User.accessToken u).
Proof. unfold matches. simpl. apply andb_true_r. Qed.

Lemma authenticateUser_spec (auth : option string) (r : Route) (next : M unit)
  (s : Store) :
  authenticateUser (mkRequest auth r) next (mkWorld s None) =
  if authenticated auth s then next (mkWorld s None)
  else (Ok tt, mkWorld s (Some pleaseLogIn)).
Proof.
  unfold authenticateUser, authenticated, tryCatch, bind, findOne, lift, getDb,
    ret, status_json, pleaseLogIn.
  destruct auth as [token|]; simpl.
  - rewrite find_existsb, (find_pointwise _ _ _ (matches_token token)).
    destruct (List.find _ (users s)); reflexivity.
  - replace (List.find _ (users s)) with (@None User.t); [reflexivity|].
    symmetry. induction (users s) as [|u l IH]; simpl; auto.
Qed.

Lemma requireConnection_up (next : M unit) (s : Store) :
  readyState s = 1 -> requireConnection next (mkWorld s None) = next (mkWorld s None).
Proof.
  intros R. unfold requireConnection, bind, getDb. simpl. rewrite R. reflexivity.
Qed.

(** Every protected route answers an unknown token with 401 and touches nothing. *)
Lemma protected_routes_reject hashSync compareSync env auth r s :
  protected r = true -> authenticated auth s = false ->
  handle hashSync compareSync env (mkRequest auth r) (mkWorld s None)
  = (Ok tt, mkWorld s (Some pleaseLogIn)).
Proof.
  intros G A. unfold handle.
  destruct r; simpl in *; try discriminate;
    rewrite authenticateUser_spec, A; reflexivity.
Qed.

(** ** Account deletion *)

Lemma adminDelete_run (userId : string) (s : Store) :
  adminDelete userId (mkWorld s None) =
  match users s with
  | [] => (Ok tt, mkWorld s (Some (mkResponse 400
             (VObj [("success", VBool false); ("response", VStr "User not found")]))))
  | _ :: rest => (Ok tt, mkWorld (setUsers rest s) (Some (mkResponse 200
             (VObj [("success", VBool true); ("response", VStr "Account removed :(")]))))
  end.
Proof.
  unfold adminDelete. run. destruct (users s); reflexivity.
Qed.

(** C10: the account removed by DELETE /:userId/admin/delete does not depend
    on the [userId] of the path.  The filter [{ userId }] names no path of the
    user schema and is dropped, so for any two path values the request does the
    same thing on the same store: once past the middlewares it removes the first
    stored user.  On the demo store, Bob's request for his own account removes
    Alice's. *)
Theorem adminDelete_ignores_userId hashSync compareSync env auth userId userId' s :
  serve hashSync compareSync env (mkRequest auth (DeleteAccount userId)) s
  = serve hashSync compareSync env (mkRequest auth (DeleteAccount userId')) s
  /\ users (storeAfter
              (serve hashSync compareSync env (mkRequest auth (DeleteAccount userId)) s))
     = (if (readyState s =? 1)%nat && authenticated auth s
        then tl (users s) else users s)
  /\ users (storeAfter
              (serve hashSync compareSync env
                 (mkRequest (Some (User.accessToken bob)) (DeleteAccount (User._id bob)))
                 demoStore))
     = [bob].
Proof.
  split; [reflexivity|]. split; [|reflexivity].
  unfold serve, storeAfter, requireConnection, bind, getDb. simpl.
  destruct (readyState s =? 1)%nat; simpl; [|reflexivity].
  unfold handle; simpl. rewrite authenticateUser_spec.
  destruct (authenticated auth s); simpl; [|reflexivity].
  rewrite adminDelete_run. destruct (users s) eqn:E; simpl; rewrite ?E; reflexivity.
Qed.

(** ** Authentication in front of the project routes *)

(** C3, at the failing input: PATCH /:userId/project-board/projects/:projectId
    is registered without [authenticateUser].  A request with no Authorization
    header, which every protected route turns down with 401, is answered 200 and
    renames Bob's project. *)
Theorem changeProject_needs_no_token hashSync compareSync :
  let r := serve hashSync compareSync demoEnv
             (mkRequest None
                (PatchProject "nobody" (Project._id party) (Some "Hijacked") None))
             demoStore in
  authenticated None demoStore = false
  /\ option_map status (sent r) = Some 200
  /\ map Project.name (projects demoStore) = ["Birthday Bash"]
  /\ map Project.name (projects (storeAfter r)) = ["Hijacked"].
Proof. repeat split. Qed.

(** ** Fetching one project *)

Lemma matches_owner (o : ObjectId) (p : Project.t) :
  matches ProjectModel [("userProject", CId o)] p = (o =? Project.userProject p).
Proof. unfold matches. simpl. apply andb_true_r. Qed.

(** What the fetch-one handler does on every input: with a [userId] that
    casts to an ObjectId it answers 200 with all the projects of that owner,
    whatever [projectId] is; otherwise it answers 400.  The 404 branch is
    never taken. *)
Lemma singleProject_run (userId projectId : string) (s : Store) :
  singleProject userId projectId (mkWorld s None) =
  match castObjectId userId with
  | Some o =>
      (Ok tt, mkWorld s (Some (mkResponse 200
         (VObj [("response", VStr "Everything is ok"); ("success", VBool true);
                ("data",
                 VArr (map Project.toValue
                         (filter (fun p => o =? Project.userProject p)
                                 (projects s))))]))))
  | None =>
      (Ok tt, mkWorld s (Some (mkResponse 400
         (VObj [("response", errorValue (CastError "userProject" userId));
                ("success", VBool false)]))))
  end.
Proof.
  unfold singleProject. run. destruct (castObjectId userId) as [o|]; simpl; [|reflexivity].
  rewrite (filter_pointwise _ _ _ (matches_owner o)). reflexivity.
Qed.

(** C1, at the failing inputs: Alice owns no project.  Her fetch of a project
    id that does not exist, and her fetch of Bob's project, are both answered
    200 with [success: true] and an empty list, not 404; the handler's own 404
    branch is guarded by the truthiness of an array and cannot be reached. *)
Theorem singleProject_never_answers_not_found hashSync compareSync :
  let fetch projectId :=
    sent (serve hashSync compareSync demoEnv
            (mkRequest (Some (User.accessToken alice))
               (GetSingleProject (User._id alice) projectId))
            demoStore) in
  let ok := Some (mkResponse 200
                    (VObj [("response", VStr "Everything is ok");
                           ("success", VBool true); ("data", VArr [])])) in
  fetch "ffffffffffffffffffffffff" = ok /\ fetch (Project._id party) = ok.
Proof. split; reflexivity. Qed.

(** ** Catalog: filter by type *)

Lemma existsb_tags (type : string) (tags : list string) :
  existsb (fun v => match v with VStr t => type =? t | _ => false end)
          (map VStr tags)
  = existsb (String.eqb type) tags.
Proof. induction tags as [|t l IH]; simpl; congruence. Qed.

Lemma no_tag (type : string) (tags : list string) :
  ~ In type tags -> existsb (String.eqb type) tags = false.
Proof.
  intros N. destruct (existsb (String.eqb type) tags) eqn:E; [|reflexivity].
  apply existsb_exists in E. destruct E as (t & I & E).
  apply String.eqb_eq in E. subst. contradiction.
Qed.

Lemma filter_none {A} (p : A -> bool) (l : list A) :
  (forall a, In a l -> p a = false) -> filter p l = [].
Proof.
  induction l as [|a l IH]; simpl; intros H; [reflexivity|].
  rewrite (H a (or_introl eq_refl)). apply IH. intros b I. apply H. now right.
Qed.

Lemma listByType_none {D} (m : Model D) (toValue : D -> value) (message type : string)
  (s : Store) :
  lookupPath "type" (paths m) = Some SArray ->
  (forall d, In d (docs m s) -> matchField (CStr type) (field m d "type") = false) ->
  listByType m toValue message type (mkWorld s None)
  = (Ok tt, mkWorld s (Some (mkResponse 200
       (VObj [("response", VArr []); ("success", VBool true)])))).
Proof.
  intros P N.
  unfold listByType. run. rewrite P. simpl.
  rewrite filter_none; [reflexivity|].
  intros d I. unfold matches. cbn [forallb fst snd]. rewrite (N d I). reflexivity.
Qed.

(** C9: filtering a catalog collection by a tag that none of its items
    carries is a success with an empty list.  For each of the five
    collections, a request that passes the middlewares is answered 200 with
    [{ response: [], success: true }], and the store is left as it was. *)
Theorem filter_by_unmatched_type_is_empty_success
  hashSync compareSync env auth c type s :
  readyState s = 1 ->
  authenticated auth s = true ->
  (forall tags, In tags (tagsOf c s) -> ~ In type tags) ->
  serve hashSync compareSync env (mkRequest auth (GetByType c type)) s
  = (Ok tt, mkWorld s (Some (mkResponse 200
       (VObj [("response", VArr []); ("success", VBool true)])))).
Proof.
  intros R A N. unfold serve. rewrite requireConnection_up by exact R.
  unfold handle; simpl. rewrite authenticateUser_spec, A.
  destruct c; simpl in N; unfold getByType;
    (apply listByType_none; [reflexivity|]);
    intros d I; simpl; unfold strings; rewrite existsb_tags; apply no_tag, N;
    apply in_map; exact I.
Qed.

Lemma filter_by_unmatched_type_witness :
  serve demoHashSync demoCompareSync demoEnv
    (mkRequest (Some "token-of-alice") (GetByType Drinks "vegan")) demoStore
  = (Ok tt, mkWorld demoStore (Some (mkResponse 200
       (VObj [("response", VArr []); ("success", VBool true)])))).
Proof.
  apply (filter_by_unmatched_type_is_empty_success demoHashSync demoCompareSync
           demoEnv (Some "token-of-alice") Drinks "vegan" demoStore);
    [reflexivity | reflexivity | ].
  intros tags [<-|[]]; simpl; intuition discriminate.
Defined.

(** ** Updating a project and its guest list *)

Lemma matches_id (o : ObjectId) (p : Project.t) :
  matches ProjectModel [("_id", CId o)] p = (o =? Project._id p).
Proof. unfold matches. simpl. apply andb_true_r. Qed.

Lemma find_any {D} (m : Model D) (l : list D) :
  List.find (matches m []) l = hd_error l.
Proof. destruct l; reflexivity. Qed.

(** The field-update handler on every input.  The lookup that precedes the
    update has both its paths dropped and finds the first project of the
    store, whichever it is. *)
Lemma changeProject_run (userId projectId : string) (name due_date : option string)
  (s : Store) :
  changeProject userId projectId name due_date (mkWorld s None) =
  match hd_error (projects s) with
  | None =>
      (Ok tt, mkWorld s (Some (mkResponse 500
         (VObj [("response", VStr "Could not update")]))))
  | Some _ =>
      match castObjectId projectId with
      | None =>
          (Ok tt, mkWorld s (Some (mkResponse 401
             (VObj [("response", VStr "Invalid credentials"); ("success", VBool false);
                    ("error", errorValue (CastError "_id" projectId))]))))
      | Some o =>
          match List.find (fun q => o =? Project._id q) (projects s) with
          | None =>
              (Throw HeadersSent, mkWorld s (Some (mkResponse 200
                 (VObj [("response", VStr "Updated"); ("data", VNull)]))))
          | Some p =>
              (Throw HeadersSent,
               mkWorld
                 (setProjects
                    (updateFirst (fun q => o =? Project._id q)
                       (setNameDueDate name due_date) (projects s)) s)
                 (Some (mkResponse 200
                    (VObj [("response", VStr "Updated");
                           ("data", Project.toValue p)]))))
          end
      end
  end.
Proof.
  unfold changeProject. run. rewrite find_any.
  destruct (hd_error (projects s)); simpl; [|reflexivity].
  destruct (castObjectId projectId) as [o|]; simpl; [|reflexivity].
  rewrite (find_pointwise _ _ (projects s) (matches_id o)).
  rewrite (updateFirst_pointwise _ _ _ (projects s) (matches_id o)).
  destruct (List.find _ (projects s)); reflexivity.
Qed.

(** C4: a field update whose body carries only [name], or only [due_date],
    overwrites that one field of the project with the given id and nothing
    else.  The project keeps its place in the collection; the other of the
    two fields, the owner, the creation time, the guest list and the selected
    catalog arrays are those it had; every other project and every other
    collection is untouched.  The stored name is the given one after the
    schema's [trim]. *)
Theorem changeProject_overwrites_only_provided
  hashSync compareSync env auth userId projectId o p new s :
  readyState s = 1 ->
  castObjectId projectId = Some o ->
  List.find (fun q => o =? Project._id q) (projects s) = Some p ->
  exists before after,
    projects s = (before ++ p :: after)%list
    /\ (forall q, In q before -> Project._id q <> o)
    /\ storeAfter
         (serve hashSync compareSync env
            (mkRequest auth (PatchProject userId projectId (Some new) None)) s)
       = setProjects (before ++ withName (trim new) p :: after)%list s
    /\ storeAfter
         (serve hashSync compareSync env
            (mkRequest auth (PatchProject userId projectId None (Some new))) s)
       = setProjects (before ++ withDueDate new p :: after)%list s.
Proof.
  intros R C F.
  assert (H : hd_error (projects s) <> None).
  { destruct (projects s); simpl in *; congruence. }
  destruct (updateFirst_split _ _ _ F) as (before & after & E & Hb & U).
  exists before, after. split; [exact E|]. split.
  { intros q I Eq. specialize (Hb q I). simpl in Hb.
    rewrite Eq, String.eqb_refl in Hb. discriminate. }
  unfold serve, storeAfter. rewrite !requireConnection_up by exact R.
  unfold handle; simpl. rewrite !changeProject_run, C, F.
  destruct (hd_error (projects s)); [|congruence]. simpl.
  rewrite !U. split; reflexivity.
Qed.

Lemma changeProject_overwrites_only_provided_witness :
  exists before after,
    projects demoStore = (before ++ party :: after)%list
    /\ (forall q, In q before -> Project._id q <> Project._id party)
    /\ storeAfter
         (serve demoHashSync demoCompareSync demoEnv
            (mkRequest (Some "token-of-bob")
               (PatchProject (User._id bob) (Project._id party) (Some " Garden Party ") None))
            demoStore)
       = setProjects (before ++ withName "Garden Party" party :: after)%list demoStore
    /\ storeAfter
         (serve demoHashSync demoCompareSync demoEnv
            (mkRequest (Some "token-of-bob")
               (PatchProject (User._id bob) (Project._id party) None (Some " Garden Party ")))
            demoStore)
       = setProjects (before ++ withDueDate " Garden Party " party :: after)%list demoStore.
Proof.
  apply (changeProject_overwrites_only_provided demoHashSync demoCompareSync demoEnv
           (Some "token-of-bob") (User._id bob) (Project._id party)
           (Project._id party) party " Garden Party " demoStore);
    reflexivity.
Defined.

(** The add-guest handler on every input.  As in the field update, the
    lookup that precedes the push finds the first project of the store; the
    push itself goes to the project with the given id, and the document
    handed back is the one read before the push. *)
Lemma addGuest_run (env : Env) (userId projectId : string)
  (guestName : option string) (phone : option Z) (s : Store) :
  addGuest env userId projectId guestName phone (mkWorld s None) =
  match hd_error (projects s) with
  | None =>
      (Ok tt, mkWorld s (Some (mkResponse 500
         (VObj [("response", VStr "Could not update")]))))
  | Some _ =>
      match castObjectId projectId with
      | None =>
          (Ok tt, mkWorld s (Some (mkResponse 401
             (VObj [("response", VStr "Invalid credentials"); ("success", VBool false);
                    ("error", errorValue (CastError "_id" projectId))]))))
      | Some o =>
          match List.find (fun q => o =? Project._id q) (projects s) with
          | None =>
              (Ok tt, mkWorld s (Some (mkResponse 200
                 (VObj [("response", VStr "Guest added"); ("data", VNull)]))))
          | Some p =>
              (Ok tt,
               mkWorld
                 (setProjects
                    (updateFirst (fun q => o =? Project._id q)
                       (pushGuest (newGuest env guestName phone)) (projects s)) s)
                 (Some (mkResponse 200
                    (VObj [("response", VStr "Guest added");
                           ("data", Project.toValue p)]))))
          end
      end
  end.
Proof.
  unfold addGuest. run. rewrite find_any.
  destruct (hd_error (projects s)); simpl; [|reflexivity].
  destruct (castObjectId projectId) as [o|]; simpl; [|reflexivity].
  rewrite (find_pointwise _ _ (projects s) (matches_id o)).
  rewrite (updateFirst_pointwise _ _ _ (projects s) (matches_id o)).
  destruct (List.find _ (projects s)); reflexivity.
Qed.

(** The append itself: for an existing project id and a request that passes
    the middlewares, one guest record is added at the end of that project's guest
    list and nothing else in the store changes; the response carries the
    project as it was read. *)
Lemma addGuest_appends hashSync compareSync env auth userId projectId o p
  guestName phone s :
  readyState s = 1 ->
  authenticated auth s = true ->
  castObjectId projectId = Some o ->
  List.find (fun q => o =? Project._id q) (projects s) = Some p ->
  exists before after,
    projects s = (before ++ p :: after)%list
    /\ serve hashSync compareSync env
         (mkRequest auth (PostAddGuest userId projectId guestName phone)) s
       = (Ok tt,
          mkWorld
            (setProjects
               (before
                  ++ withGuestList
                       (Project.guestList p ++ [newGuest env guestName phone]) p
                  :: after)%list s)
            (Some (mkResponse 200
               (VObj [("response", VStr "Guest added");
                      ("data", Project.toValue p)])))).
Proof.
  intros R A C F.
  assert (H : hd_error (projects s) <> None).
  { destruct (projects s); simpl in *; congruence. }
  destruct (updateFirst_split _ _ _ F) as (before & after & E & Hb & U).
  exists before, after. split; [exact E|].
  unfold serve. rewrite requireConnection_up by exact R.
  unfold handle; simpl. rewrite authenticateUser_spec, A, addGuest_run, C, F.
  destruct (hd_error (projects s)); [|congruence].
  rewrite U. reflexivity.
Qed.

(** C5, at the failing input: Bob adds the guest Sam to his project.  The
    guest is appended to the stored guest list, but the project in the
    response is the document read before the push ([findByIdAndUpdate] without
    [new: true]): its guest list is still empty. *)
Theorem addGuest_returns_project_before_push hashSync compareSync :
  let r := serve hashSync compareSync demoEnv
             (mkRequest (Some (User.accessToken bob))
                (PostAddGuest (User._id bob) (Project._id party)
                   (Some "Sam") (Some 5551234%Z)))
             demoStore in
  projects (storeAfter r) = [withGuestList [sam] party]
  /\ sent r = Some (mkResponse 200
                      (VObj [("response", VStr "Guest added");
                             ("data", Project.toValue party)]))
  /\ Project.guestList party = [].
Proof. repeat split. Qed.

(** The remove-guest handler never writes to the projects collection: it
    deletes from the separate guests collection, with a filter whose only
    path is dropped. *)
Lemma deleteGuest_keeps_projects (userId projectId guestId : string) (s : Store) :
  projects (db (snd (deleteGuest userId projectId guestId (mkWorld s None))))
  = projects s.
Proof.
  unfold deleteGuest. run. rewrite find_any.
  destruct (hd_error (guests s)); reflexivity.
Qed.

(** C2, at the failing input: Bob adds the guest Sam to his project, whose
    guest list was empty, then asks to remove Sam by the identifier just
    created.  The removal is answered 404 and the guest list still holds Sam:
    the round trip does not return the list to its prior content. *)
Theorem deleteGuest_does_not_undo_addGuest hashSync compareSync :
  let added :=
    storeAfter
      (serve hashSync compareSync demoEnv
         (mkRequest (Some (User.accessToken bob))
            (PostAddGuest (User._id bob) (Project._id party)
               (Some "Sam") (Some 5551234%Z)))
         demoStore) in
  let r := serve hashSync compareSync demoEnv
             (mkRequest (Some (User.accessToken bob))
                (DeleteGuest (User._id bob) (Project._id party) (Guest._id sam)))
             added in
  map Project.guestList (projects demoStore) = [[]]
  /\ map Project.guestList (projects added) = [[sam]]
  /\ map Project.guestList (projects (storeAfter r)) = [[sam]]
  /\ sent r = Some (mkResponse 404
                      (VObj [("response", VStr "Guest not found");
                             ("success", VBool false)])).
Proof. repeat split. Qed.

(** ** Sign-in *)

Lemma matches_email (e : string) (u : User.t) :
  matches UserModel [("email", CStr e)] u = (e =? User.email u).
Proof. unfold matches. simpl. apply andb_true_r. Qed.

Lemma find_undefined_email (l : list User.t) :
  List.find (matches UserModel [("email", CNull)]) l = None.
Proof. induction l as [|u l IH]; simpl; auto. Qed.

(** The sign-in handler on every input. *)
Lemma signIn_run compareSync (email password : option string) (s : Store) :
  signIn compareSync email password (mkWorld s None) =
  (Ok tt,
   mkWorld s
     (Some
        match email with
        | None => credentialsDidNotMatch
        | Some e =>
            match List.find (fun u => e =? User.email u) (users s) with
            | None => credentialsDidNotMatch
            | Some u =>
                match password with
                | None =>
                    mkResponse 500
                      (VObj [("success", VBool false);
                             ("response", VStr "oops something went wrong");
                             ("error", VObj [])])
                | Some pw =>
                    if compareSync pw (User.password u) then
                      mkResponse 201
                        (VObj [("success", VBool true);
                               ("response",
                                VObj [("userId", VStr (User._id u));
                                      ("email", VStr (User.email u));
                                      ("accessToken", VStr (User.accessToken u))])])
                    else credentialsDidNotMatch
                end
            end
        end)).
Proof.
  unfold signIn, credentialsDidNotMatch. run.
  destruct email as [e|]; simpl.
  - rewrite (find_pointwise _ _ (users s) (matches_email e)).
    destruct (List.find _ (users s)) as [u|]; simpl; [|reflexivity].
    destruct password as [pw|]; simpl; [|reflexivity].
    destruct (compareSync pw (User.password u)); reflexivity.
  - rewrite find_undefined_email. reflexivity.
Qed.

(** With unique emails, the user found by email is the user with that email. *)
Lemma find_by_unique_email (l : list User.t) (u : User.t) :
  NoDup (map User.email l) -> In u l ->
  List.find (fun v => User.email u =? User.email v) l = Some u.
Proof.
  induction l as [|a l IH]; simpl; intros N I; [contradiction|].
  inversion N as [|x y Hx Hy]; subst.
  destruct I as [->|I].
  - rewrite String.eqb_refl. reflexivity.
  - destruct (User.email u =? User.email a) eqn:E.
    + apply String.eqb_eq in E. exfalso. apply Hx. rewrite <- E.
      apply in_map. exact I.
    + apply IH; assumption.
Qed.

Lemma find_by_unknown_email (l : list User.t) (e : string) :
  (forall v, In v l -> User.email v <> e) ->
  List.find (fun v => e =? User.email v) l = None.
Proof.
  induction l as [|a l IH]; simpl; intros H; [reflexivity|].
  destruct (e =? User.email a) eqn:E.
  - apply String.eqb_eq in E. exfalso. apply (H a); auto.
  - apply IH. intros v I. apply H. now right.
Qed.

(** X27: sign-in succeeds exactly when the email is that of a stored user and
    the supplied password matches that user's stored hash; and a supplied
    wrong password for a stored email gets the very response, and leaves the
    very store, that the same password gets for an email no user has: 400
    with "Credentials did not match".  Emails are unique in the store (the
    schema's unique index). *)
Theorem signIn_succeeds_iff_credentials_match hashSync compareSync env auth s :
  readyState s = 1 ->
  NoDup (map User.email (users s)) ->
  (forall email password,
      succeeded (serve hashSync compareSync env
                   (mkRequest auth (PostSignIn email password)) s) = true
      <-> exists e pw u,
            email = Some e /\ password = Some pw /\ In u (users s)
            /\ User.email u = e /\ compareSync pw (User.password u) = true)
  /\ (forall e e' pw u,
        In u (users s) -> User.email u = e ->
        compareSync pw (User.password u) = false ->
        (forall v, In v (users s) -> User.email v <> e') ->
        serve hashSync compareSync env
          (mkRequest auth (PostSignIn (Some e) (Some pw))) s
        = serve hashSync compareSync env
            (mkRequest auth (PostSignIn (Some e') (Some pw))) s
        /\ serve hashSync compareSync env
             (mkRequest auth (PostSignIn (Some e) (Some pw))) s
           = (Ok tt, mkWorld s (Some credentialsDidNotMatch))).
Proof.
  intros R N. split.
  - intros email password. unfold serve, succeeded, sent.
    rewrite requireConnection_up by exact R. unfold handle; simpl.
    rewrite signIn_run. simpl. split.
    + destruct email as [e|]; [|discriminate].
      destruct (List.find _ (users s)) as [u|] eqn:F; [|discriminate].
      destruct password as [pw|]; [|discriminate].
      destruct (compareSync pw (User.password u)) eqn:C; [|discriminate].
      intros _. apply find_some in F. destruct F as [I E].
      apply String.eqb_eq in E. exists e, pw, u. auto.
    + intros (e & pw & u & -> & -> & I & <- & C).
      rewrite (find_by_unique_email _ _ N I), C. reflexivity.
  - intros e e' pw u I <- C U. unfold serve.
    rewrite !requireConnection_up by exact R. unfold handle; simpl.
    rewrite !signIn_run, (find_by_unique_email _ _ N I), C,
      (find_by_unknown_email _ _ U).
    split; reflexivity.
Qed.

Lemma signIn_succeeds_iff_credentials_match_witness :
  (succeeded (serve demoHashSync demoCompareSync demoEnv
                (mkRequest None (PostSignIn (Some "a@b.com") (Some "password1")))
                demoStore) = true
   <-> exists e pw u,
         Some "a@b.com" = Some e /\ Some "password1" = Some pw
         /\ In u (users demoStore) /\ User.email u = e
         /\ demoCompareSync pw (User.password u) = true)
  /\ serve demoHashSync demoCompareSync demoEnv
       (mkRequest None (PostSignIn (Some "a@b.com") (Some "wrong-one"))) demoStore
     = serve demoHashSync demoCompareSync demoEnv
         (mkRequest None (PostSignIn (Some "x@y.com") (Some "wrong-one"))) demoStore.
Proof.
  assert (N : NoDup (map User.email (users demoStore))).
  { simpl. repeat constructor; simpl; intuition discriminate. }
  destruct (signIn_succeeds_iff_credentials_match demoHashSync demoCompareSync
              demoEnv None demoStore eq_refl N) as [H1 H2].
  split.
  - apply H1.
  - apply (H2 "a@b.com" "x@y.com" "wrong-one" alice).
    + simpl. auto.
    + reflexivity.
    + reflexivity.
    + intros v [<-|[<-|[]]]; simpl; discriminate.
Defined.

(** C6, at the failing input: a sign-in request that carries no password.
    For the email of a stored user [bcrypt.compareSync] throws on the missing
    password and the [catch] answers 500 "oops something went wrong"; for an
    email no user has the answer is 400 "Credentials did not match".  The two
    failure responses differ, so the result tells whether the email is that
    of an account.  This holds on every store with the connection up. *)
Theorem signIn_without_password_reveals_the_email
  hashSync compareSync env auth u unknown s :
  readyState s = 1 ->
  In u (users s) ->
  (forall v, In v (users s) -> User.email v <> unknown) ->
  let stored := serve hashSync compareSync env
                  (mkRequest auth (PostSignIn (Some (User.email u)) None)) s in
  let absent := serve hashSync compareSync env
                  (mkRequest auth (PostSignIn (Some unknown) None)) s in
  sent stored
  = Some (mkResponse 500
            (VObj [("success", VBool false);
                   ("response", VStr "oops something went wrong");
                   ("error", VObj [])]))
  /\ sent absent = Some credentialsDidNotMatch
  /\ sent stored <> sent absent.
Proof.
  intros R I U stored absent. subst stored absent. unfold serve, sent.
  rewrite !requireConnection_up by exact R.
  unfold handle; cbv beta iota delta [route]. rewrite !signIn_run.
  cbn [snd res]. rewrite (find_by_unknown_email _ _ U).
  destruct (List.find (fun v => User.email u =? User.email v) (users s)) eqn:F.
  - split; [reflexivity|]. split; [reflexivity|]. discriminate.
  - exfalso. apply (find_none _ _ F) in I. rewrite String.eqb_refl in I.
    discriminate.
Qed.

Lemma signIn_without_password_reveals_the_email_witness :
  let stored := serve demoHashSync demoCompareSync demoEnv
                  (mkRequest None (PostSignIn (Some "a@b.com") None)) demoStore in
  let absent := serve demoHashSync demoCompareSync demoEnv
                  (mkRequest None (PostSignIn (Some "x@y.com") None)) demoStore in
  sent stored
  = Some (mkResponse 500
            (VObj [("success", VBool false);
                   ("response", VStr "oops something went wrong");
                   ("error", VObj [])]))
  /\ sent absent = Some credentialsDidNotMatch
  /\ sent stored <> sent absent.
Proof.
  apply (signIn_without_password_reveals_the_email demoHashSync demoCompareSync
           demoEnv None alice "x@y.com" demoStore).
  - reflexivity.
  - simpl. auto.
  - intros v [<-|[<-|[]]]; simpl; discriminate.
Defined.

(** ** Sign-up and the access token *)






Lemma existsb_none {A} (p : A -> bool) (l : list A) :
  (forall a, In a l -> p a = false) -> existsb p l = false.
Proof.
  induction l as [|a l IH]; simpl; intros H; [reflexivity|].
  rewrite (H a (or_introl eq_refl)). apply IH. intros b I. apply H. now right.
Qed.

(** Sign-up with valid inputs: the new user is appended to the collection
    with the token drawn for it, and the response is 201. *)
Lemma signUp_valid hashSync compareSync env auth email password s :
  readyState s = 1 ->
  8 <= String.length password ->
  toLowerCase email <> "" ->
  8 <= String.length (hashSync password (salt env)) ->
  (forall u, In u (users s) ->
             User._id u <> newId env /\ User.email u <> toLowerCase email) ->
  let token := toHex (randomBytes 128 (rng env)) in
  let newUser := User.mk (newId env) (toLowerCase email)
                   (hashSync password (salt env)) token in
  serve hashSync compareSync env
    (mkRequest auth (PostSignUp (Some email) (Some password))) s
  = (Ok tt,
     mkWorld (setUsers (users s ++ [newUser]) s)
       (Some (mkResponse 201
          (VObj [("response",
                  VObj [("email", VStr (toLowerCase email));
                        ("accessToken", VStr token);
                        ("userId", VStr (newId env))]);
                 ("success", VBool true)])))).
Proof.
  intros R Lp Le Lh Fresh token newUser. unfold serve.
  rewrite requireConnection_up by exact R. unfold handle; simpl.
  unfold signUp, saveUser. run.
  apply Nat.ltb_ge in Lp. rewrite Lp.
  apply String.eqb_neq in Le. rewrite Le.
  assert (Hn : (hashSync password (salt env) =? "") = false).
  { destruct (hashSync password (salt env)); simpl in *; [lia|reflexivity]. }
  rewrite Hn. apply Nat.ltb_ge in Lh. rewrite Lh.
  rewrite existsb_none.
  2:{ intros u I. apply String.eqb_neq. apply (Fresh u I). }
  rewrite existsb_none.
  2:{ intros u I. apply String.eqb_neq. apply (Fresh u I). }
  reflexivity.
Qed.




(** ** The response envelope *)

(** C7, the counterexamples: three responses that are not envelopes.  The
    route list at / is an array; the connection check answers
    [{ status_code, error }]; a theme fetched by id comes back as
    [{ success, theme }], with no [response] field. *)
Lemma responses_outside_the_envelope :
  (exists resp,
      sent (serve demoHashSync demoCompareSync demoEnv (mkRequest None GetRoot)
              demoStore) = Some resp
      /\ isEnvelope (body resp) = false)
  /\ (exists resp,
         sent (serve demoHashSync demoCompareSync demoEnv
                 (mkRequest (Some "token-of-alice") (GetCollection Themes))
                 offlineStore) = Some resp
         /\ isEnvelope (body resp) = false)
  /\ (exists resp,
         sent (serve demoHashSync demoCompareSync demoEnv
                 (mkRequest (Some "token-of-alice") (GetThemeById (Theme._id pirates)))
                 demoStore) = Some resp
         /\ isEnvelope (body resp) = false).
Proof.
  split; [|split]; eexists; (split; [vm_compute; reflexivity|reflexivity]).
Qed.

Lemma authenticated_nonempty (auth : option string) (s : Store) :
  authenticated auth s = true -> exists u l, users s = u :: l.
Proof.
  unfold authenticated. destruct auth; [|discriminate].
  destruct (users s) as [|u l]; [discriminate|]. eauto.
Qed.

Arguments randomBytes : simpl never.
Arguments toHex : simpl never.

(** Case analysis on whatever the handler still branches on. *)
Ltac branch :=
  repeat (simpl;
          match goal with
          | |- context [match ?x with _ => _ end] =>
              lazymatch x with
              | context [match _ with _ => _ end] => fail
              | _ => destruct x eqn:?
              end
          end).

Ltac handlers :=
  unfold signUp, signIn, adminDelete, adminChange, getCollection, getByType,
    listAll, listByType, themeById, listProjects, singleProject, addProject,
    changeProject, addGuest, deleteGuest, deleteProject, projectBoard, root,
    saveUser, saveProject.

(** C7, as the code has it: with the connection up, on every route other
    than the route list, the theme lookup by id, the project field update and
    add-guest, a response that is sent is an envelope, an object with a
    boolean [success] and a [response]; and every such request is answered,
    once, except on the project list, which can leave a request unanswered. *)
Theorem envelope_on_enveloped_routes hashSync compareSync env req s :
  readyState s = 1 ->
  enveloped (route req) = true ->
  match sent (serve hashSync compareSync env req s) with
  | Some resp => isEnvelope (body resp) = true
  | None => answers (route req) = false
  end.
Proof.
  intros R E. unfold serve. rewrite requireConnection_up by exact R.
  destruct req as [auth r]. unfold handle.
  destruct r; cbv beta iota delta [route] in *; simpl in E; try discriminate; clear E;
    try rewrite authenticateUser_spec;
    try (destruct (authenticated auth s) eqn:A; [|reflexivity]).
  all: try match goal with c : Collection |- _ => destruct c end.
  all: handlers; run; branch; try reflexivity.
  (* a string filter value always casts *)
  { match goal with
    | H : castForQuery _ SString (ofOption ?e) = Throw _ |- _ =>
        destruct e; discriminate H
    end. }
  (* the project board finds the user that authenticateUser has just found *)
  apply authenticated_nonempty in A. destruct A as (u & l & A).
  match goal with H : List.find _ (users s) = None |- _ => rewrite A in H; discriminate H end.
Qed.

Lemma envelope_on_enveloped_routes_witness :
  match sent (serve demoHashSync demoCompareSync demoEnv
                (mkRequest (Some "token-of-bob")
                   (DeleteProject (User._id bob) (Project._id party)))
                demoStore) with
  | Some resp => isEnvelope (body resp) = true
  | None => False
  end.
Proof.
  generalize (envelope_on_enveloped_routes demoHashSync demoCompareSync demoEnv
                (mkRequest (Some "token-of-bob")
                   (DeleteProject (User._id bob) (Project._id party)))
                demoStore eq_refl eq_refl).
  destruct (sent _); [trivial | discriminate].
Defined.

(** ** The middlewares, on every route *)

(** X1: with the connection down ([readyState] other than 1) every request,
    whatever its route and token, is answered 503
    [{ status_code: 503, error: "Server unavailable" }]; no handler runs and
    the store is not touched. *)
Theorem connection_down_answers_503 hashSync compareSync env req s :
  readyState s <> 1 ->
  serve hashSync compareSync env req s = (Ok tt, mkWorld s (Some serverUnavailable)).
Proof.
  intros R. unfold serve, requireConnection, bind, getDb. simpl.
  apply Nat.eqb_neq in R. rewrite R. reflexivity.
Qed.

Lemma connection_down_answers_503_witness :
  serve demoHashSync demoCompareSync demoEnv
    (mkRequest (Some "token-of-alice") (PostSignIn (Some "a@b.com") (Some "password1")))
    offlineStore
  = (Ok tt, mkWorld offlineStore (Some serverUnavailable)).
Proof.
  apply (connection_down_answers_503 demoHashSync demoCompareSync demoEnv
           (mkRequest (Some "token-of-alice")
              (PostSignIn (Some "a@b.com") (Some "password1")))
           offlineStore).
  simpl. discriminate.
Defined.

(** X2: on every route registered behind [authenticateUser], a request whose
    Authorization header is missing or is no stored user's token is answered
    401 "Please log in", and the store is left as it was. *)
Theorem unknown_token_is_rejected hashSync compareSync env req s :
  readyState s = 1 ->
  protected (route req) = true ->
  authenticated (authorization req) s = false ->
  serve hashSync compareSync env req s = (Ok tt, mkWorld s (Some pleaseLogIn)).
Proof.
  intros R P A. unfold serve. rewrite requireConnection_up by exact R.
  destruct req as [auth r]. apply protected_routes_reject; assumption.
Qed.

Lemma unknown_token_is_rejected_witness :
  serve demoHashSync demoCompareSync demoEnv
    (mkRequest (Some "token-of-nobody")
       (DeleteProject (User._id bob) (Project._id party)))
    demoStore
  = (Ok tt, mkWorld demoStore (Some pleaseLogIn)).
Proof.
  apply (unknown_token_is_rejected demoHashSync demoCompareSync demoEnv
           (mkRequest (Some "token-of-nobody")
              (DeleteProject (User._id bob) (Project._id party)))
           demoStore);
    reflexivity.
Defined.

(** X3: the token is checked for being some stored user's token and for
    nothing else.  Two requests for the same route and path that carry the
    tokens of two stored users, whoever they are, get the same answer and
    leave the same store: the [userId] of the path is never compared with the
    owner of the token. *)
Theorem any_stored_token_serves_any_path hashSync compareSync env auth auth' r s :
  authenticated auth s = true ->
  authenticated auth' s = true ->
  serve hashSync compareSync env (mkRequest auth r) s
  = serve hashSync compareSync env (mkRequest auth' r) s.
Proof.
  intros A A'. unfold serve, requireConnection, bind, getDb. simpl.
  destruct (readyState s =? 1)%nat; [|reflexivity].
  unfold handle.
  destruct r; cbv beta iota delta [route]; try reflexivity;
    rewrite !authenticateUser_spec, A, A'; reflexivity.
Qed.

Lemma any_stored_token_serves_any_path_witness :
  serve demoHashSync demoCompareSync demoEnv
    (mkRequest (Some "token-of-alice") (GetProjects (User._id bob))) demoStore
  = serve demoHashSync demoCompareSync demoEnv
      (mkRequest (Some "token-of-bob") (GetProjects (User._id bob))) demoStore.
Proof.
  apply (any_stored_token_serves_any_path demoHashSync demoCompareSync demoEnv
           (Some "token-of-alice") (Some "token-of-bob")
           (GetProjects (User._id bob)) demoStore);
    reflexivity.
Defined.

(** X4: no request changes a catalog collection or the connection state:
    themes, decorations, food, drinks and activities are the same after any
    request as before it. *)
Theorem catalog_is_never_written hashSync compareSync env req s :
  let s' := storeAfter (serve hashSync compareSync env req s) in
  themes s' = themes s /\ decorations s' = decorations s /\ food s' = food s
  /\ drinks s' = drinks s /\ activities s' = activities s
  /\ readyState s' = readyState s.
Proof.
  unfold serve, storeAfter, requireConnection, bind, getDb. simpl.
  destruct (readyState s =? 1)%nat; [|simpl; repeat split].
  destruct req as [auth r]. unfold handle.
  destruct r; cbv beta iota delta [route];
    try rewrite authenticateUser_spec;
    try (destruct (authenticated auth s); [|simpl; repeat split]).
  all: try match goal with c : Collection |- _ => destruct c end.
  all: handlers; run; branch; repeat split.
Qed.

(** X5: the reading routes (the route list, sign-in, the catalog routes, the
    project list, fetch-one and the project board) leave the whole store as it
    was, whatever they answer. *)
Theorem reading_routes_keep_the_store hashSync compareSync env req s :
  readOnly (route req) = true ->
  storeAfter (serve hashSync compareSync env req s) = s.
Proof.
  intros E. unfold serve, storeAfter, requireConnection, bind, getDb. simpl.
  destruct (readyState s =? 1)%nat; [|reflexivity].
  destruct req as [auth r]. unfold handle.
  destruct r; cbv beta iota delta [route] in *; simpl in E; try discriminate; clear E;
    try rewrite authenticateUser_spec;
    try (destruct (authenticated auth s); [|reflexivity]).
  all: try match goal with c : Collection |- _ => destruct c end.
  all: handlers; run; branch; reflexivity.
Qed.

Lemma reading_routes_keep_the_store_witness :
  storeAfter
    (serve demoHashSync demoCompareSync demoEnv
       (mkRequest (Some "token-of-bob")
          (GetSingleProject (User._id bob) (Project._id party)))
       demoStore)
  = demoStore.
Proof.
  apply (reading_routes_keep_the_store demoHashSync demoCompareSync demoEnv
           (mkRequest (Some "token-of-bob")
              (GetSingleProject (User._id bob) (Project._id party)))
           demoStore).
  reflexivity.
Defined.

(** ** Accounts: sign-up, sign-in, password change *)

Lemma existsb_eqb_false {A} (f : A -> string) (x : string) (l : list A) :
  existsb (fun v => f v =? x) l = false -> ~ In x (map f l).
Proof.
  induction l as [|a l IH]; simpl; intros E; [tauto|].
  apply orb_false_iff in E. destruct E as [E1 E2].
  apply String.eqb_neq in E1. intros [H|H]; [congruence|]. exact (IH E2 H).
Qed.

Lemma not_in_existsb_eqb_users (x : string) (l : list User.t) :
  ~ In x (map User._id l) -> existsb (fun v => User._id v =? x) l = false.
Proof.
  intros N. induction l as [|a l IH]; simpl in *; [reflexivity|].
  apply orb_false_iff. split.
  - apply String.eqb_neq. tauto.
  - apply IH. tauto.
Qed.

(** X6: sign-up either refuses or appends.  With the connection up, every
    sign-up request is answered 400 and leaves the store as it was, or is
    answered 201 and appends exactly one user to the collection: one with the
    lower-cased email, the bcrypt hash of a password of at least 8 characters,
    an email and an id that no stored user had. *)
Theorem signUp_appends_or_refuses hashSync compareSync env auth email password s :
  readyState s = 1 ->
  let r := serve hashSync compareSync env
             (mkRequest auth (PostSignUp email password)) s in
  (option_map status (sent r) = Some 400 /\ storeAfter r = s)
  \/ (exists em pw,
         email = Some em /\ password = Some pw
         /\ 8 <= String.length pw
         /\ toLowerCase em <> ""
         /\ ~ In (toLowerCase em) (map User.email (users s))
         /\ ~ In (newId env) (map User._id (users s))
         /\ option_map status (sent r) = Some 201
         /\ storeAfter r
            = setUsers
                (users s ++ [User.mk (newId env) (toLowerCase em)
                               (hashSync pw (salt env))
                               (toHex (randomBytes 128 (rng env)))])%list s).
Proof.
  intros R r. subst r. unfold serve. rewrite requireConnection_up by exact R.
  unfold handle; cbv beta iota delta [route]. unfold signUp, saveUser. run.
  branch; simpl; try (left; split; reflexivity).
  - right. exists s1, s0. repeat split; try reflexivity.
    + apply Nat.ltb_ge. assumption.
    + apply String.eqb_neq. assumption.
    + apply existsb_eqb_false. assumption.
    + apply existsb_eqb_false. assumption.
  - destruct email; discriminate.
Qed.

Lemma signUp_appends_or_refuses_witness :
  let r := serve demoHashSync demoCompareSync demoEnv
             (mkRequest None (PostSignUp (Some "a@b.com") (Some "password9")))
             demoStore in
  (option_map status (sent r) = Some 400 /\ storeAfter r = demoStore)
  \/ (exists em pw,
         Some "a@b.com" = Some em /\ Some "password9" = Some pw
         /\ 8 <= String.length pw
         /\ toLowerCase em <> ""
         /\ ~ In (toLowerCase em) (map User.email (users demoStore))
         /\ ~ In (newId demoEnv) (map User._id (users demoStore))
         /\ option_map status (sent r) = Some 201
         /\ storeAfter r
            = setUsers
                (users demoStore
                   ++ [User.mk (newId demoEnv) (toLowerCase em)
                         (demoHashSync pw (salt demoEnv))
                         (toHex (randomBytes 128 (rng demoEnv)))])%list demoStore).
Proof.
  apply (signUp_appends_or_refuses demoHashSync demoCompareSync demoEnv None
           (Some "a@b.com") (Some "password9") demoStore).
  reflexivity.
Defined.

Lemma NoDup_map_snoc {A B} (f : A -> B) (l : list A) (x : A) :
  NoDup (map f l) -> ~ In (f x) (map f l) -> NoDup (map f (l ++ [x])).
Proof.
  intros N I. rewrite map_app. simpl.
  apply NoDup_app; [exact N | repeat constructor; simpl; tauto |].
  intros y Hy [<-|[]]. exact (I Hy).
Qed.

Lemma NoDup_map_removeFirst {A B} (f : A -> B) (p : A -> bool) (l : list A) :
  NoDup (map f l) -> NoDup (map f (removeFirst p l)).
Proof.
  induction l as [|a l IH]; simpl; intros N; [exact N|].
  inversion N as [|x y Hx Hy]; subst.
  destruct (p a); [exact Hy|]. simpl. constructor; [|exact (IH Hy)].
  intros I. apply Hx. clear - I.
  induction l as [|b l IH]; simpl in *; [exact I|].
  destruct (p b); simpl in *; tauto.
Qed.

Lemma map_updateFirst_same {A B} (f : A -> B) (g : A -> A) (p : A -> bool)
  (l : list A) :
  (forall a, f (g a) = f a) -> map f (updateFirst p g l) = map f l.
Proof.
  intros E. induction l as [|a l IH]; simpl; [reflexivity|].
  destruct (p a); simpl; [rewrite E | rewrite IH]; reflexivity.
Qed.

(** X7: no request breaks the uniqueness of emails or of user ids.  If no
    two stored users share an email, and no two share an id, the same holds
    after any request, on any route, with any input. *)
Theorem users_stay_unique hashSync compareSync env req s :
  NoDup (map User.email (users s)) ->
  NoDup (map User._id (users s)) ->
  let s' := storeAfter (serve hashSync compareSync env req s) in
  NoDup (map User.email (users s')) /\ NoDup (map User._id (users s')).
Proof.
  intros Ne Ni. unfold serve, storeAfter, requireConnection, bind, getDb. simpl.
  destruct (readyState s =? 1)%nat; [|simpl; split; assumption].
  destruct req as [auth r]. unfold handle.
  destruct r; cbv beta iota delta [route];
    try rewrite authenticateUser_spec;
    try (destruct (authenticated auth s); [|simpl; split; assumption]).
  all: try match goal with c : Collection |- _ => destruct c end.
  all: handlers; run; branch; simpl; try (split; assumption).
  - split; apply NoDup_map_snoc; simpl; auto using existsb_eqb_false.
  - split; apply NoDup_map_removeFirst; assumption.
  - rewrite !map_updateFirst_same by reflexivity. split; assumption.
Qed.

Lemma users_stay_unique_witness :
  let s' := storeAfter
              (serve demoHashSync demoCompareSync demoEnv
                 (mkRequest None (PostSignUp (Some "New@X.com") (Some "password9")))
                 demoStore) in
  NoDup (map User.email (users s')) /\ NoDup (map User._id (users s')).
Proof.
  apply (users_stay_unique demoHashSync demoCompareSync demoEnv
           (mkRequest None (PostSignUp (Some "New@X.com") (Some "password9")))
           demoStore);
    simpl; repeat constructor; simpl; intuition discriminate.
Defined.

Lemma find_snoc_new {A} (p : A -> bool) (l : list A) (x : A) :
  (forall a, In a l -> p a = false) -> p x = true ->
  List.find p (l ++ [x]) = Some x.
Proof.
  induction l as [|a l IH]; simpl; intros N P.
  - rewrite P. reflexivity.
  - rewrite (N a (or_introl eq_refl)). apply IH; auto.
Qed.

Lemma find_snoc_none {A} (p : A -> bool) (l : list A) (x : A) :
  (forall a, In a l -> p a = false) -> p x = false ->
  List.find p (l ++ [x]) = None.
Proof.
  induction l as [|a l IH]; simpl; intros N P.
  - rewrite P. reflexivity.
  - rewrite (N a (or_introl eq_refl)). apply IH; auto.
Qed.

(** X8: sign-up then sign-in.  After a valid sign-up, a sign-in with the
    lower-cased email and the same password is answered 201 with the id and
    the token that sign-up stored: the token is read back, not made anew.
    bcrypt is assumed to accept the password against its own hash. *)
Theorem signIn_after_signUp hashSync compareSync env env' auth auth' email password s :
  readyState s = 1 ->
  8 <= String.length password ->
  toLowerCase email <> "" ->
  8 <= String.length (hashSync password (salt env)) ->
  (forall u, In u (users s) ->
             User._id u <> newId env /\ User.email u <> toLowerCase email) ->
  compareSync password (hashSync password (salt env)) = true ->
  let s' := storeAfter
              (serve hashSync compareSync env
                 (mkRequest auth (PostSignUp (Some email) (Some password))) s) in
  sent (serve hashSync compareSync env'
          (mkRequest auth' (PostSignIn (Some (toLowerCase email)) (Some password))) s')
  = Some (mkResponse 201
            (VObj [("success", VBool true);
                   ("response",
                    VObj [("userId", VStr (newId env));
                          ("email", VStr (toLowerCase email));
                          ("accessToken", VStr (toHex (randomBytes 128 (rng env))))])])).
Proof.
  intros R Lp Le Lh Fresh C s'. subst s'.
  rewrite (signUp_valid hashSync compareSync env auth email password s R Lp Le Lh Fresh).
  unfold serve, storeAfter, sent. cbn [snd db].
  rewrite requireConnection_up by exact R.
  unfold handle; cbv beta iota delta [route]. rewrite signIn_run. cbn [snd res users setUsers].
  rewrite find_snoc_new.
  - cbn [User.password User._id User.email User.accessToken]. rewrite C. reflexivity.
  - intros u I. apply String.eqb_neq. intros E. apply (Fresh u I). auto.
  - apply String.eqb_refl.
Qed.

Lemma signIn_after_signUp_witness :
  let s' := storeAfter
              (serve demoHashSync demoCompareSync demoEnv
                 (mkRequest None (PostSignUp (Some "New@X.com") (Some "password9")))
                 demoStore) in
  sent (serve demoHashSync demoCompareSync demoEnv
          (mkRequest None (PostSignIn (Some (toLowerCase "New@X.com")) (Some "password9")))
          s')
  = Some (mkResponse 201
            (VObj [("success", VBool true);
                   ("response",
                    VObj [("userId", VStr (newId demoEnv));
                          ("email", VStr (toLowerCase "New@X.com"));
                          ("accessToken",
                           VStr (toHex (randomBytes 128 (rng demoEnv))))])])).
Proof.
  apply (signIn_after_signUp demoHashSync demoCompareSync demoEnv demoEnv None None
           "New@X.com" "password9" demoStore).
  - reflexivity.
  - simpl. lia.
  - simpl. discriminate.
  - simpl. lia.
  - intros u [<-|[<-|[]]]; simpl; split; discriminate.
  - reflexivity.
Defined.

(** X9: sign-up lower-cases the email, sign-in compares it as typed.  After a
    valid sign-up with an email that has an upper-case letter, a sign-in with
    that same spelling and the right password is refused with 400
    "Credentials did not match" (no stored user has the email as typed). *)
Theorem signIn_with_the_spelling_of_signUp_fails
  hashSync compareSync env env' auth auth' email password s :
  readyState s = 1 ->
  8 <= String.length password ->
  toLowerCase email <> "" ->
  8 <= String.length (hashSync password (salt env)) ->
  (forall u, In u (users s) ->
             User._id u <> newId env /\ User.email u <> toLowerCase email) ->
  toLowerCase email <> email ->
  (forall u, In u (users s) -> User.email u <> email) ->
  let s' := storeAfter
              (serve hashSync compareSync env
                 (mkRequest auth (PostSignUp (Some email) (Some password))) s) in
  serve hashSync compareSync env'
    (mkRequest auth' (PostSignIn (Some email) (Some password))) s'
  = (Ok tt, mkWorld s' (Some credentialsDidNotMatch)).
Proof.
  intros R Lp Le Lh Fresh U N s'. subst s'.
  rewrite (signUp_valid hashSync compareSync env auth email password s R Lp Le Lh Fresh).
  unfold serve, storeAfter. cbn [snd db].
  rewrite requireConnection_up by exact R.
  unfold handle; cbv beta iota delta [route]. rewrite signIn_run. cbn [users setUsers].
  rewrite find_snoc_none; [reflexivity | |].
  - intros u I. apply String.eqb_neq. intros E. apply (N u I). auto.
  - apply String.eqb_neq. cbn [User.email]. auto.
Qed.

Lemma signIn_with_the_spelling_of_signUp_fails_witness :
  let s' := storeAfter
              (serve demoHashSync demoCompareSync demoEnv
                 (mkRequest None (PostSignUp (Some "New@X.com") (Some "password9")))
                 demoStore) in
  serve demoHashSync demoCompareSync demoEnv
    (mkRequest None (PostSignIn (Some "New@X.com") (Some "password9"))) s'
  = (Ok tt, mkWorld s' (Some credentialsDidNotMatch)).
Proof.
  apply (signIn_with_the_spelling_of_signUp_fails demoHashSync demoCompareSync
           demoEnv demoEnv None None "New@X.com" "password9" demoStore).
  - reflexivity.
  - simpl. lia.
  - simpl. discriminate.
  - simpl. lia.
  - intros u [<-|[<-|[]]]; simpl; split; discriminate.
  - simpl. discriminate.
  - intros u [<-|[<-|[]]]; simpl; discriminate.
Defined.

Lemma matches_user_id (o : ObjectId) (u : User.t) :
  matches UserModel [("_id", CId o)] u = (o =? User._id u).
Proof. unfold matches. simpl. apply andb_true_r. Qed.

(** The password-change handler on every input.  Its first lookup has its
    only path dropped and finds the first stored user; the update goes to the
    user whose id is the path's. *)
Lemma adminChange_run hashSync (env : Env) (userId : string)
  (password : option string) (s : Store) :
  adminChange hashSync env userId password (mkWorld s None) =
  match hd_error (users s) with
  | None =>
      (Ok tt, mkWorld s (Some (mkResponse 400
         (VObj [("success", VBool false); ("response", VStr "User not found")]))))
  | Some _ =>
      match password with
      | None =>
          (Ok tt, mkWorld s (Some (mkResponse 500
             (VObj [("success", VBool false); ("response", VObj [])]))))
      | Some pw =>
          match castObjectId userId with
          | None =>
              (Ok tt, mkWorld s (Some (mkResponse 500
                 (VObj [("success", VBool false);
                        ("response", errorValue (CastError "_id" userId))]))))
          | Some o =>
              match List.find (fun u => o =? User._id u) (users s) with
              | None =>
                  (Ok tt, mkWorld s (Some (mkResponse 200
                     (VObj [("success", VBool true); ("data", VNull);
                            ("response", VStr "Password changed")]))))
              | Some u =>
                  (Ok tt,
                   mkWorld
                     (setUsers
                        (updateFirst (fun v => o =? User._id v)
                           (setPassword (hashSync pw (salt env))) (users s)) s)
                     (Some (mkResponse 200
                        (VObj [("success", VBool true); ("data", User.toValue u);
                               ("response", VStr "Password changed")]))))
              end
          end
      end
  end.
Proof.
  unfold adminChange. run. rewrite find_any.
  destruct (hd_error (users s)); simpl; [|reflexivity].
  destruct password as [pw|]; simpl; [|reflexivity].
  destruct (castObjectId userId) as [o|]; simpl; [|reflexivity].
  rewrite (find_pointwise _ _ (users s) (matches_user_id o)).
  rewrite (updateFirst_pointwise _ _ _ (users s) (matches_user_id o)).
  destruct (List.find _ (users s)); reflexivity.
Qed.

(** X10: a password change replaces the stored hash of the user whose id is
    in the path and nothing else: that user keeps id, email and token and its
    place in the collection, every other user and collection is untouched.
    Any stored user's token authorises it.  The response carries the user
    document as it was before the change, old hash included. *)
Theorem adminChange_replaces_one_hash
  hashSync compareSync env auth userId o u password s :
  readyState s = 1 ->
  authenticated auth s = true ->
  castObjectId userId = Some o ->
  List.find (fun v => o =? User._id v) (users s) = Some u ->
  exists before after,
    users s = (before ++ u :: after)%list
    /\ (forall v, In v before -> User._id v <> o)
    /\ serve hashSync compareSync env
         (mkRequest auth (PatchPassword userId (Some password))) s
       = (Ok tt,
          mkWorld
            (setUsers
               (before
                  ++ User.mk (User._id u) (User.email u)
                       (hashSync password (salt env)) (User.accessToken u)
                  :: after)%list s)
            (Some (mkResponse 200
               (VObj [("success", VBool true); ("data", User.toValue u);
                      ("response", VStr "Password changed")])))).
Proof.
  intros R A C F.
  assert (H : hd_error (users s) <> None).
  { destruct (users s); simpl in *; congruence. }
  destruct (updateFirst_split _ _ _ F) as (before & after & E & Hb & U).
  exists before, after. split; [exact E|]. split.
  { intros v I Eq. specialize (Hb v I). simpl in Hb.
    rewrite Eq, String.eqb_refl in Hb. discriminate. }
  unfold serve. rewrite requireConnection_up by exact R.
  unfold handle; cbv beta iota delta [route].
  rewrite authenticateUser_spec, A, adminChange_run, C, F.
  destruct (hd_error (users s)); [|congruence].
  rewrite U. reflexivity.
Qed.

Lemma adminChange_replaces_one_hash_witness :
  exists before after,
    users demoStore = (before ++ bob :: after)%list
    /\ (forall v, In v before -> User._id v <> User._id bob)
    /\ serve demoHashSync demoCompareSync demoEnv
         (mkRequest (Some "token-of-alice")
            (PatchPassword (User._id bob) (Some "new-password"))) demoStore
       = (Ok tt,
          mkWorld
            (setUsers
               (before
                  ++ User.mk (User._id bob) (User.email bob)
                       (demoHashSync "new-password" (salt demoEnv))
                       (User.accessToken bob)
                  :: after)%list demoStore)
            (Some (mkResponse 200
               (VObj [("success", VBool true); ("data", User.toValue bob);
                      ("response", VStr "Password changed")])))).
Proof.
  apply (adminChange_replaces_one_hash demoHashSync demoCompareSync demoEnv
           (Some "token-of-alice") (User._id bob) (User._id bob) bob
           "new-password" demoStore);
    reflexivity.
Defined.

(** X11: a password change for an id that no stored user has is still
    answered 200 "Password changed", with [data: null], and changes nothing:
    the handler's "User not found" branch follows a lookup that finds any
    user at all. *)
Theorem adminChange_unknown_user_reports_success
  hashSync compareSync env auth userId o password s :
  readyState s = 1 ->
  authenticated auth s = true ->
  castObjectId userId = Some o ->
  (forall v, In v (users s) -> User._id v <> o) ->
  serve hashSync compareSync env
    (mkRequest auth (PatchPassword userId (Some password))) s
  = (Ok tt,
     mkWorld s
       (Some (mkResponse 200
          (VObj [("success", VBool true); ("data", VNull);
                 ("response", VStr "Password changed")])))).
Proof.
  intros R A C N.
  unfold serve. rewrite requireConnection_up by exact R.
  unfold handle; cbv beta iota delta [route].
  rewrite authenticateUser_spec, A, adminChange_run, C.
  destruct (authenticated_nonempty _ _ A) as (u & l & E).
  rewrite E. cbn [hd_error]. rewrite <- E.
  replace (List.find (fun v => o =? User._id v) (users s)) with (@None User.t);
    [reflexivity|].
  symmetry. clear - N. induction (users s) as [|a l IH]; simpl; [reflexivity|].
  destruct (o =? User._id a) eqn:Q.
  - apply String.eqb_eq in Q. exfalso. apply (N a); simpl; auto.
  - apply IH. intros v I. apply N. now right.
Qed.

Lemma adminChange_unknown_user_reports_success_witness :
  serve demoHashSync demoCompareSync demoEnv
    (mkRequest (Some "token-of-alice")
       (PatchPassword "ffffffffffffffffffffffff" (Some "new-password"))) demoStore
  = (Ok tt,
     mkWorld demoStore
       (Some (mkResponse 200
          (VObj [("success", VBool true); ("data", VNull);
                 ("response", VStr "Password changed")])))).
Proof.
  apply (adminChange_unknown_user_reports_success demoHashSync demoCompareSync
           demoEnv (Some "token-of-alice") "ffffffffffffffffffffffff"
           "ffffffffffffffffffffffff" "new-password" demoStore);
    try reflexivity.
  intros v [<-|[<-|[]]]; simpl; discriminate.
Defined.

(** X12: password change then sign-in.  After a password change for a stored
    user, a sign-in with that user's email and the new password is answered
    201 with the token the user already had: changing the password neither
    rotates nor revokes the token.  Emails are unique in the store and bcrypt
    accepts the new password against its own hash. *)
Theorem signIn_after_adminChange
  hashSync compareSync env env' auth auth' userId o u password s :
  readyState s = 1 ->
  authenticated auth s = true ->
  castObjectId userId = Some o ->
  List.find (fun v => o =? User._id v) (users s) = Some u ->
  NoDup (map User.email (users s)) ->
  compareSync password (hashSync password (salt env)) = true ->
  let s' := storeAfter
              (serve hashSync compareSync env
                 (mkRequest auth (PatchPassword userId (Some password))) s) in
  sent (serve hashSync compareSync env'
          (mkRequest auth' (PostSignIn (Some (User.email u)) (Some password))) s')
  = Some (mkResponse 201
            (VObj [("success", VBool true);
                   ("response",
                    VObj [("userId", VStr (User._id u));
                          ("email", VStr (User.email u));
                          ("accessToken", VStr (User.accessToken u))])])).
Proof.
  intros R A C F N B s'. subst s'.
  assert (H : hd_error (users s) <> None).
  { destruct (users s); simpl in *; congruence. }
  destruct (updateFirst_split _ _ _ F) as (before & after & E & _ & U).
  assert (Run : storeAfter
                  (serve hashSync compareSync env
                     (mkRequest auth (PatchPassword userId (Some password))) s)
                = setUsers
                    (before
                       ++ User.mk (User._id u) (User.email u)
                            (hashSync password (salt env)) (User.accessToken u)
                       :: after)%list
                    s).
  { unfold serve. rewrite requireConnection_up by exact R.
    unfold handle; cbv beta iota delta [route].
    rewrite authenticateUser_spec, A, adminChange_run, C, F.
    destruct (hd_error (users s)); [|congruence].
    rewrite U. reflexivity. }
  rewrite Run. unfold serve, sent.
  rewrite requireConnection_up by exact R.
  unfold handle; cbv beta iota delta [route]. rewrite signIn_run.
  cbn [snd res users setUsers].
  set (u' := User.mk (User._id u) (User.email u) (hashSync password (salt env))
               (User.accessToken u)).
  assert (Fu : List.find (fun v => User.email u =? User.email v)
                 (before ++ u' :: after) = Some u').
  { apply (find_by_unique_email (before ++ u' :: after) u').
    - rewrite E in N. rewrite map_app in *. exact N.
    - apply in_or_app. right. left. reflexivity. }
  rewrite Fu. unfold u'. cbn [User.password User._id User.email User.accessToken].
  rewrite B. reflexivity.
Qed.

Lemma signIn_after_adminChange_witness :
  let s' := storeAfter
              (serve demoHashSync demoCompareSync demoEnv
                 (mkRequest (Some "token-of-alice")
                    (PatchPassword (User._id bob) (Some "new-password"))) demoStore) in
  sent (serve demoHashSync demoCompareSync demoEnv
          (mkRequest None (PostSignIn (Some (User.email bob)) (Some "new-password"))) s')
  = Some (mkResponse 201
            (VObj [("success", VBool true);
                   ("response",
                    VObj [("userId", VStr (User._id bob));
                          ("email", VStr (User.email bob));
                          ("accessToken", VStr (User.accessToken bob))])])).
Proof.
  apply (signIn_after_adminChange demoHashSync demoCompareSync demoEnv demoEnv
           (Some "token-of-alice") None (User._id bob) (User._id bob) bob
           "new-password" demoStore);
    try reflexivity.
  simpl. repeat constructor; simpl; intuition discriminate.
Defined.

Lemma in_existsb_eqb {A} (f : A -> string) (x : string) (l : list A) (a : A) :
  In a l -> f a = x -> existsb (fun v => f v =? x) l = true.
Proof.
  intros I E. apply existsb_exists. exists a. split; [exact I|].
  apply String.eqb_eq. exact E.
Qed.

(** X26: sign-up refuses an email that is taken.  When a stored user already
    has the lower-cased email, a sign-up that is otherwise valid is answered
    400 "User already exists" and stores nothing; the comparison is made on
    the lower-cased email, so another spelling of a taken email is refused as
    well. *)
Theorem signUp_refuses_a_taken_email
  hashSync compareSync env auth email password u s :
  readyState s = 1 ->
  8 <= String.length password ->
  8 <= String.length (hashSync password (salt env)) ->
  email <> "" ->
  In u (users s) ->
  User.email u = toLowerCase email ->
  ~ In (newId env) (map User._id (users s)) ->
  let r := serve hashSync compareSync env
             (mkRequest auth (PostSignUp (Some email) (Some password))) s in
  storeAfter r = s
  /\ exists props,
       sent r = Some (mkResponse 400 (VObj props))
       /\ getProp "response" props = Some (VStr "User already exists")
       /\ getProp "success" props = Some (VBool false).
Proof.
  intros R Lp Lh Ne I E Fresh r. subst r.
  unfold serve. rewrite requireConnection_up by exact R.
  unfold handle; cbv beta iota delta [route]. unfold signUp, saveUser. run.
  apply Nat.ltb_ge in Lp. rewrite Lp.
  assert (Hl : (toLowerCase email =? "") = false).
  { destruct email; [congruence | reflexivity]. }
  rewrite Hl.
  assert (Hn : (hashSync password (salt env) =? "") = false).
  { destruct (hashSync password (salt env)); simpl in *; [lia|reflexivity]. }
  rewrite Hn. apply Nat.ltb_ge in Lh. rewrite Lh. cbn [db].
  rewrite (not_in_existsb_eqb_users _ _ Fresh).
  rewrite (in_existsb_eqb User.email _ _ u I E).
  apply String.eqb_neq in Ne. simpl. rewrite Ne.
  destruct (List.find _ (users s)); simpl; (split; [reflexivity|]);
    eexists; (split; [reflexivity|]); split; reflexivity.
Qed.

Lemma signUp_refuses_a_taken_email_witness :
  let r := serve demoHashSync demoCompareSync demoEnv
             (mkRequest None (PostSignUp (Some "A@B.com") (Some "password9")))
             demoStore in
  storeAfter r = demoStore
  /\ exists props,
       sent r = Some (mkResponse 400 (VObj props))
       /\ getProp "response" props = Some (VStr "User already exists")
       /\ getProp "success" props = Some (VBool false).
Proof.
  apply (signUp_refuses_a_taken_email demoHashSync demoCompareSync demoEnv None
           "A@B.com" "password9" alice demoStore).
  - reflexivity.
  - simpl. lia.
  - simpl. lia.
  - discriminate.
  - simpl. auto.
  - reflexivity.
  - simpl. intuition discriminate.
Defined.

(** ** Catalog routes *)

Lemma listAll_run {D} (m : Model D) (toValue : D -> value) (message : string)
  (s : Store) :
  listAll m toValue message (mkWorld s None)
  = (Ok tt, mkWorld s (Some (mkResponse 200
       (VObj [("response", VArr (map toValue (docs m s))); ("success", VBool true)])))).
Proof.
  unfold listAll. run. rewrite (filter_pointwise _ (fun _ => true)), filter_all;
    reflexivity.
Qed.

Lemma listByType_run {D} (m : Model D) (toValue : D -> value)
  (message type : string) (s : Store) :
  lookupPath "type" (paths m) = Some SArray ->
  listByType m toValue message type (mkWorld s None)
  = (Ok tt, mkWorld s (Some (mkResponse 200
       (VObj [("response",
               VArr (map toValue
                       (filter (fun d => matchField (CStr type) (field m d "type"))
                               (docs m s))));
              ("success", VBool true)])))).
Proof.
  intros P. unfold listByType. run. rewrite P. simpl.
  rewrite (filter_pointwise _ (fun d => matchField (CStr type) (field m d "type")));
    [reflexivity|].
  intros d. unfold matches. cbn [forallb fst snd]. apply andb_true_r.
Qed.

(** X13: the catalog routes.  For each of the five collections, a request
    that passes the middlewares is answered 200 [success: true]: the list
    route with every document of the collection in store order (an empty
    list for an empty collection), the type route with exactly the documents
    whose [type] array holds the tag, in the same order.  The tag is compared
    as a whole string, case and all. *)
Theorem catalog_lists_and_filters hashSync compareSync env auth c tag s :
  readyState s = 1 ->
  authenticated auth s = true ->
  serve hashSync compareSync env (mkRequest auth (GetCollection c)) s
  = (Ok tt, mkWorld s (Some (mkResponse 200
       (VObj [("response", VArr (allItems c s)); ("success", VBool true)]))))
  /\ serve hashSync compareSync env (mkRequest auth (GetByType c tag)) s
     = (Ok tt, mkWorld s (Some (mkResponse 200
          (VObj [("response", VArr (taggedItems c tag s)); ("success", VBool true)])))).
Proof.
  intros R A. unfold serve. rewrite !requireConnection_up by exact R.
  unfold handle; cbv beta iota delta [route]. rewrite !authenticateUser_spec, A.
  split.
  - destruct c; unfold getCollection; apply listAll_run.
  - destruct c; unfold getByType; rewrite listByType_run by reflexivity;
      unfold taggedItems; cbn [docs ThemeModel DecorationModel DrinkModel FoodModel
                                 ActivityModel];
      (erewrite filter_pointwise; [reflexivity|]);
      intros d; simpl; unfold strings, hasTag; apply existsb_tags.
Qed.

Lemma catalog_lists_and_filters_witness :
  serve demoHashSync demoCompareSync demoEnv
    (mkRequest (Some "token-of-alice") (GetCollection Drinks)) demoStore
  = (Ok tt, mkWorld demoStore (Some (mkResponse 200
       (VObj [("response", VArr (allItems Drinks demoStore));
              ("success", VBool true)]))))
  /\ serve demoHashSync demoCompareSync demoEnv
       (mkRequest (Some "token-of-alice") (GetByType Drinks "summer")) demoStore
     = (Ok tt, mkWorld demoStore (Some (mkResponse 200
          (VObj [("response", VArr (taggedItems Drinks "summer" demoStore));
                 ("success", VBool true)])))).
Proof.
  apply (catalog_lists_and_filters demoHashSync demoCompareSync demoEnv
           (Some "token-of-alice") Drinks "summer" demoStore);
    reflexivity.
Defined.

Lemma matches_theme_id (o : ObjectId) (t : Theme.t) :
  matches ThemeModel [("_id", CId o)] t = (o =? Theme._id t).
Proof. unfold matches. simpl. apply andb_true_r. Qed.

(** X14: the three outcomes of the theme lookup by id.  An id that is no
    ObjectId is answered 400 "Invalid id"; an ObjectId that no theme has is
    answered 404; otherwise the answer is 200 with the first theme whose id
    it is.  The store is left as it was. *)
Theorem themeById_outcomes hashSync compareSync env auth id s :
  readyState s = 1 ->
  authenticated auth s = true ->
  serve hashSync compareSync env (mkRequest auth (GetThemeById id)) s
  = (Ok tt,
     mkWorld s
       (Some
          match castObjectId id with
          | None =>
              mkResponse 400
                (VObj [("success", VBool false); ("status_code", VNum 400);
                       ("error", VStr "Invalid id")])
          | Some o =>
              match List.find (fun t => o =? Theme._id t) (themes s) with
              | Some t =>
                  mkResponse 200
                    (VObj [("success", VBool true); ("theme", Theme.toValue t)])
              | None =>
                  mkResponse 404
                    (VObj [("success", VBool false); ("status_code", VNum 404);
                           ("error", VStr "Id not found, try another")])
              end
          end)).
Proof.
  intros R A. unfold serve. rewrite requireConnection_up by exact R.
  unfold handle; cbv beta iota delta [route]. rewrite authenticateUser_spec, A.
  unfold themeById. run.
  destruct (castObjectId id) as [o|]; simpl; [|reflexivity].
  rewrite (find_pointwise _ _ (themes s) (matches_theme_id o)).
  destruct (List.find _ (themes s)); reflexivity.
Qed.

Lemma themeById_outcomes_witness :
  serve demoHashSync demoCompareSync demoEnv
    (mkRequest (Some "token-of-alice") (GetThemeById "not-an-id")) demoStore
  = (Ok tt,
     mkWorld demoStore
       (Some (mkResponse 400
                (VObj [("success", VBool false); ("status_code", VNum 400);
                       ("error", VStr "Invalid id")])))).
Proof.
  apply (themeById_outcomes demoHashSync demoCompareSync demoEnv
           (Some "token-of-alice") "not-an-id" demoStore);
    reflexivity.
Defined.

(** ** Project routes *)

Lemma listProjects_run (userId : string) (s : Store) :
  listProjects userId (mkWorld s None) =
  match castObjectId userId with
  | Some o =>
      (Ok tt, mkWorld s (Some (mkResponse 200
         (VObj [("response", VArr (map Project.toValue (ownedBy o s)));
                ("success", VBool true)]))))
  | None => (Throw (CastError "userProject" userId), mkWorld s None)
  end.
Proof.
  unfold listProjects, ownedBy. run.
  destruct (castObjectId userId) as [o|]; simpl; [|reflexivity].
  rewrite (filter_pointwise _ _ _ (matches_owner o)). reflexivity.
Qed.

(** X15: the project list.  For a [userId] that is an ObjectId the answer is
    200 [success: true] with exactly the projects whose owner it is, in store
    order, and an empty list when there are none (the "Could not find any
    projects!" branches are never taken).  For a [userId] that is no ObjectId
    the query, awaited outside the [try], throws: nothing is sent and the
    CastError leaves the handler uncaught. *)
Theorem listProjects_outcomes hashSync compareSync env auth userId s :
  readyState s = 1 ->
  authenticated auth s = true ->
  serve hashSync compareSync env (mkRequest auth (GetProjects userId)) s
  = match castObjectId userId with
    | Some o =>
        (Ok tt, mkWorld s (Some (mkResponse 200
           (VObj [("response", VArr (map Project.toValue (ownedBy o s)));
                  ("success", VBool true)]))))
    | None => (Throw (CastError "userProject" userId), mkWorld s None)
    end.
Proof.
  intros R A. unfold serve. rewrite requireConnection_up by exact R.
  unfold handle; cbv beta iota delta [route].
  rewrite authenticateUser_spec, A. apply listProjects_run.
Qed.

Lemma listProjects_outcomes_witness :
  serve demoHashSync demoCompareSync demoEnv
    (mkRequest (Some "token-of-bob") (GetProjects "bob")) demoStore
  = (Throw (CastError "userProject" "bob"), mkWorld demoStore None).
Proof.
  apply (listProjects_outcomes demoHashSync demoCompareSync demoEnv
           (Some "token-of-bob") "bob" demoStore);
    reflexivity.
Defined.

(** X16: fetch-one answers with the owner's whole list.  The [projectId] of
    the path plays no part: for a [userId] that is an ObjectId the data of
    the response is the list of all projects of that owner, the same list the
    project list route returns, for every [projectId]. *)
Theorem singleProject_returns_the_owners_list
  hashSync compareSync env auth userId o projectId s :
  readyState s = 1 ->
  authenticated auth s = true ->
  castObjectId userId = Some o ->
  serve hashSync compareSync env
    (mkRequest auth (GetSingleProject userId projectId)) s
  = (Ok tt, mkWorld s (Some (mkResponse 200
       (VObj [("response", VStr "Everything is ok"); ("success", VBool true);
              ("data", VArr (map Project.toValue (ownedBy o s)))])))).
Proof.
  intros R A C. unfold serve. rewrite requireConnection_up by exact R.
  unfold handle; cbv beta iota delta [route].
  rewrite authenticateUser_spec, A, singleProject_run, C. reflexivity.
Qed.

Lemma singleProject_returns_the_owners_list_witness :
  serve demoHashSync demoCompareSync demoEnv
    (mkRequest (Some "token-of-bob")
       (GetSingleProject (User._id bob) "ffffffffffffffffffffffff")) demoStore
  = (Ok tt, mkWorld demoStore (Some (mkResponse 200
       (VObj [("response", VStr "Everything is ok"); ("success", VBool true);
              ("data",
               VArr (map Project.toValue (ownedBy (User._id bob) demoStore)))])))).
Proof.
  apply (singleProject_returns_the_owners_list demoHashSync demoCompareSync demoEnv
           (Some "token-of-bob") (User._id bob) (User._id bob)
           "ffffffffffffffffffffffff" demoStore);
    reflexivity.
Defined.

(** X17: add-project either refuses or appends.  A request that passes the
    middlewares is answered 400 and leaves the store as it was, or is answered
    200 and appends exactly one project: its name is the given one trimmed
    and is 5 to 30 characters long, its owner is the [userId] of the path, its
    due date is the given one or the placeholder "YY-MM-DD", its guest list
    and selections are empty, and its id is one no stored project had. *)
Theorem addProject_appends_or_refuses
  hashSync compareSync env auth userId name due_date s :
  readyState s = 1 ->
  authenticated auth s = true ->
  let r := serve hashSync compareSync env
             (mkRequest auth (PostAddProject userId name due_date)) s in
  (option_map status (sent r) = Some 400 /\ storeAfter r = s)
  \/ (exists n owner,
         name = Some n /\ castObjectId userId = Some owner
         /\ 5 <= String.length (trim n) <= 30
         /\ ~ In (newId env) (map Project._id (projects s))
         /\ let p := Project.mk (newId env) (trim n) owner
                       (match due_date with Some d => d | None => "YY-MM-DD" end)
                       (now env) [] [] [] [] [] [] in
            sent r = Some (mkResponse 200
                             (VObj [("success", VBool true);
                                    ("response", Project.toValue p)]))
            /\ storeAfter r = setProjects (projects s ++ [p])%list s).
Proof.
  intros R A r. subst r. unfold serve. rewrite requireConnection_up by exact R.
  unfold handle; cbv beta iota delta [route]. rewrite authenticateUser_spec, A.
  unfold addProject, saveProject. run.
  branch; simpl; try (left; split; reflexivity).
  all: right; eexists _, _; repeat split; try reflexivity.
  all: try (apply Nat.ltb_ge; assumption).
  all: try (apply existsb_eqb_false; assumption).
Qed.

Lemma addProject_appends_or_refuses_witness :
  let r := serve demoHashSync demoCompareSync demoEnv
             (mkRequest (Some "token-of-alice")
                (PostAddProject (User._id alice) (Some "  Garden Party ") None))
             demoStore in
  (option_map status (sent r) = Some 400 /\ storeAfter r = demoStore)
  \/ (exists n owner,
         Some "  Garden Party " = Some n
         /\ castObjectId (User._id alice) = Some owner
         /\ 5 <= String.length (trim n) <= 30
         /\ ~ In (newId demoEnv) (map Project._id (projects demoStore))
         /\ let p := Project.mk (newId demoEnv) (trim n) owner "YY-MM-DD"
                       (now demoEnv) [] [] [] [] [] [] in
            sent r = Some (mkResponse 200
                             (VObj [("success", VBool true);
                                    ("response", Project.toValue p)]))
            /\ storeAfter r = setProjects (projects demoStore ++ [p])%list demoStore).
Proof.
  apply (addProject_appends_or_refuses demoHashSync demoCompareSync demoEnv
           (Some "token-of-alice") (User._id alice) (Some "  Garden Party ") None
           demoStore);
    reflexivity.
Defined.

Lemma not_in_existsb_eqb {A} (f : A -> string) (x : string) (l : list A) :
  ~ In x (map f l) -> existsb (fun v => f v =? x) l = false.
Proof.
  intros N. apply existsb_none. intros a I. apply String.eqb_neq.
  intros E. apply N. rewrite <- E. apply in_map. exact I.
Qed.

Lemma authenticated_setProjects (auth : option string) (l : list Project.t)
  (s : Store) :
  authenticated auth (setProjects l s) = authenticated auth s.
Proof. destruct auth; reflexivity. Qed.

(** Add-project with valid inputs. *)
Lemma addProject_valid hashSync compareSync env auth userId o n due_date s :
  readyState s = 1 ->
  authenticated auth s = true ->
  castObjectId userId = Some o ->
  5 <= String.length (trim n) <= 30 ->
  ~ In (newId env) (map Project._id (projects s)) ->
  let p := Project.mk (newId env) (trim n) o
             (match due_date with Some d => d | None => "YY-MM-DD" end)
             (now env) [] [] [] [] [] [] in
  serve hashSync compareSync env
    (mkRequest auth (PostAddProject userId (Some n) due_date)) s
  = (Ok tt,
     mkWorld (setProjects (projects s ++ [p])%list s)
       (Some (mkResponse 200
          (VObj [("success", VBool true); ("response", Project.toValue p)])))).
Proof.
  intros R A C [L5 L30] Fresh p. subst p.
  unfold serve. rewrite requireConnection_up by exact R.
  unfold handle; cbv beta iota delta [route]. rewrite authenticateUser_spec, A.
  unfold addProject, saveProject. run.
  assert (E : (trim n =? "") = false).
  { destruct (trim n); simpl in *; [lia|reflexivity]. }
  rewrite E. apply Nat.ltb_ge in L5. rewrite L5.
  apply Nat.ltb_ge in L30. rewrite L30. rewrite C. simpl.
  rewrite (not_in_existsb_eqb _ _ _ Fresh). reflexivity.
Qed.

(** X18: add-project then the project list.  After a valid add-project for
    the [userId] of the path, the project list of that [userId] is the list
    it was before followed by the new project. *)
Theorem listProjects_after_addProject
  hashSync compareSync env env' auth userId o n due_date s :
  readyState s = 1 ->
  authenticated auth s = true ->
  castObjectId userId = Some o ->
  5 <= String.length (trim n) <= 30 ->
  ~ In (newId env) (map Project._id (projects s)) ->
  let p := Project.mk (newId env) (trim n) o
             (match due_date with Some d => d | None => "YY-MM-DD" end)
             (now env) [] [] [] [] [] [] in
  let s' := storeAfter
              (serve hashSync compareSync env
                 (mkRequest auth (PostAddProject userId (Some n) due_date)) s) in
  sent (serve hashSync compareSync env' (mkRequest auth (GetProjects userId)) s')
  = Some (mkResponse 200
            (VObj [("response", VArr (map Project.toValue (ownedBy o s ++ [p])%list));
                   ("success", VBool true)])).
Proof.
  intros R A C B Fresh p s'. subst s'.
  rewrite (addProject_valid hashSync compareSync env auth userId o n due_date s
             R A C B Fresh).
  fold p. unfold storeAfter. cbn [snd db].
  unfold serve. rewrite requireConnection_up by exact R.
  unfold handle; cbv beta iota delta [route].
  rewrite authenticateUser_spec, authenticated_setProjects, A, listProjects_run, C.
  unfold sent. cbn [snd res]. unfold ownedBy. cbn [projects setProjects].
  rewrite filter_app. cbn [filter]. unfold p at 1. cbn [Project.userProject].
  rewrite String.eqb_refl. reflexivity.
Qed.

Lemma listProjects_after_addProject_witness :
  let p := Project.mk (newId demoEnv) "Garden Party" (User._id alice) "YY-MM-DD"
             (now demoEnv) [] [] [] [] [] [] in
  let s' := storeAfter
              (serve demoHashSync demoCompareSync demoEnv
                 (mkRequest (Some "token-of-alice")
                    (PostAddProject (User._id alice) (Some "  Garden Party ") None))
                 demoStore) in
  sent (serve demoHashSync demoCompareSync demoEnv
          (mkRequest (Some "token-of-alice") (GetProjects (User._id alice))) s')
  = Some (mkResponse 200
            (VObj [("response",
                    VArr (map Project.toValue
                            (ownedBy (User._id alice) demoStore ++ [p])%list));
                   ("success", VBool true)])).
Proof.
  apply (listProjects_after_addProject demoHashSync demoCompareSync demoEnv demoEnv
           (Some "token-of-alice") (User._id alice) (User._id alice)
           "  Garden Party " None demoStore).
  - reflexivity.
  - reflexivity.
  - reflexivity.
  - simpl. lia.
  - simpl. intuition discriminate.
Defined.

Lemma Forall_updateFirst {A} (P : A -> Prop) (p : A -> bool) (g : A -> A)
  (l : list A) :
  (forall a, P a -> P (g a)) -> Forall P l -> Forall P (updateFirst p g l).
Proof.
  intros G. induction 1 as [|a l Pa Pl IH]; simpl; [constructor|].
  destruct (p a); constructor; auto.
Qed.

Lemma Forall_removeFirst {A} (P : A -> Prop) (p : A -> bool) (l : list A) :
  Forall P l -> Forall P (removeFirst p l).
Proof.
  induction 1 as [|a l Pa Pl IH]; simpl; [constructor|].
  destruct (p a); [assumption | constructor; assumption].
Qed.

(** X19: the name bounds are an invariant of every route but the field
    update.  If every stored project has a name of 5 to 30 characters, so
    has every stored project after any request on any other route: create
    validates, add-guest and the deletions leave names alone. *)
Theorem name_bounds_kept_outside_field_update hashSync compareSync env req s :
  isFieldUpdate (route req) = false ->
  Forall nameInBounds (projects s) ->
  Forall nameInBounds (projects (storeAfter (serve hashSync compareSync env req s))).
Proof.
  intros E Inv. unfold serve, storeAfter, requireConnection, bind, getDb. simpl.
  destruct (readyState s =? 1)%nat; [|exact Inv].
  destruct req as [auth r]. unfold handle.
  destruct r; cbv beta iota delta [route] in *; simpl in E; try discriminate; clear E;
    try rewrite authenticateUser_spec;
    try (destruct (authenticated auth s); [|exact Inv]).
  all: try match goal with c : Collection |- _ => destruct c end.
  all: handlers; run; branch; simpl; try exact Inv.
  - apply Forall_app. split; [exact Inv|]. constructor; [|constructor].
    unfold nameInBounds. cbn [Project.name]. split; apply Nat.ltb_ge; assumption.
  - apply Forall_app. split; [exact Inv|]. constructor; [|constructor].
    unfold nameInBounds. cbn [Project.name]. split; apply Nat.ltb_ge; assumption.
  - apply Forall_updateFirst; [|exact Inv]. intros a Pa. exact Pa.
  - apply Forall_removeFirst. exact Inv.
Qed.

Lemma name_bounds_kept_outside_field_update_witness :
  Forall nameInBounds
    (projects
       (storeAfter
          (serve demoHashSync demoCompareSync demoEnv
             (mkRequest (Some "token-of-alice")
                (PostAddProject (User._id alice) (Some "  Garden Party ") None))
             demoStore))).
Proof.
  apply (name_bounds_kept_outside_field_update demoHashSync demoCompareSync demoEnv
           (mkRequest (Some "token-of-alice")
              (PostAddProject (User._id alice) (Some "  Garden Party ") None))
           demoStore).
  - reflexivity.
  - repeat constructor; simpl; lia.
Defined.

(** X20: the field update skips the name validators.  A name that is shorter
    than 5 or longer than 30 characters once trimmed is refused by add-project
    (400, nothing stored), yet the field update writes it into an existing
    project, which then breaks the bounds of the schema. *)
Theorem field_update_skips_the_name_validators
  hashSync compareSync env auth userId projectId o p n s :
  readyState s = 1 ->
  authenticated auth s = true ->
  castObjectId projectId = Some o ->
  List.find (fun q => o =? Project._id q) (projects s) = Some p ->
  String.length (trim n) < 5 \/ 30 < String.length (trim n) ->
  (let r := serve hashSync compareSync env
              (mkRequest auth (PostAddProject userId (Some n) None)) s in
   option_map status (sent r) = Some 400 /\ storeAfter r = s)
  /\ (let s' := storeAfter
                  (serve hashSync compareSync env
                     (mkRequest auth (PatchProject userId projectId (Some n) None)) s) in
      In (withName (trim n) p) (projects s')
      /\ ~ nameInBounds (withName (trim n) p)).
Proof.
  intros R A C F B. split.
  - unfold serve. rewrite requireConnection_up by exact R.
    unfold handle; cbv beta iota delta [route]. rewrite authenticateUser_spec, A.
    unfold addProject, saveProject. run.
    branch; simpl; try (split; reflexivity).
    exfalso.
    repeat match goal with
           | H : (_ <? _)%nat = false |- _ => apply Nat.ltb_ge in H
           end.
    lia.
  - assert (H : hd_error (projects s) <> None).
    { destruct (projects s); simpl in *; congruence. }
    destruct (updateFirst_split _ _ _ F) as (before & after & E & _ & U).
    unfold serve, storeAfter. rewrite requireConnection_up by exact R.
    unfold handle; cbv beta iota delta [route].
    rewrite changeProject_run, C, F.
    destruct (hd_error (projects s)); [|congruence].
    cbn [snd db projects setProjects]. rewrite U. split.
    + apply in_or_app. right. left. reflexivity.
    + unfold nameInBounds, withName. cbn [Project.name]. lia.
Qed.

Lemma field_update_skips_the_name_validators_witness :
  (let r := serve demoHashSync demoCompareSync demoEnv
              (mkRequest (Some "token-of-bob")
                 (PostAddProject (User._id bob) (Some " ab ") None)) demoStore in
   option_map status (sent r) = Some 400 /\ storeAfter r = demoStore)
  /\ (let s' := storeAfter
                  (serve demoHashSync demoCompareSync demoEnv
                     (mkRequest (Some "token-of-bob")
                        (PatchProject (User._id bob) (Project._id party)
                           (Some " ab ") None)) demoStore) in
      In (withName (trim " ab ") party) (projects s')
      /\ ~ nameInBounds (withName (trim " ab ") party)).
Proof.
  apply (field_update_skips_the_name_validators demoHashSync demoCompareSync
           demoEnv (Some "token-of-bob") (User._id bob) (Project._id party)
           (Project._id party) party " ab " demoStore);
    try reflexivity.
  left. simpl. lia.
Defined.

Lemma deleteProject_run (userId projectId : string) (s : Store) :
  deleteProject userId projectId (mkWorld s None) =
  match projects s with
  | [] => (Ok tt, mkWorld s (Some (mkResponse 404
             (VObj [("response", VStr "Project not found"); ("success", VBool false)]))))
  | _ :: rest => (Ok tt, mkWorld (setProjects rest s) (Some (mkResponse 200
             (VObj [("response", VStr "Project has been deleted");
                    ("success", VBool true)]))))
  end.
Proof.
  unfold deleteProject. run. destruct (projects s); reflexivity.
Qed.

(** X21: delete-project removes the first project of the store, not the one
    named in the path.  The filter [{ projectId }] names no path of the project
    schema and is dropped, and the [userId] is only looked up, so for any two
    [userId]s and any two [projectId]s the request does the same thing on the
    same store: once past the middlewares it removes the first stored project,
    whoever owns it, and answers 404 only when there is no project at all. *)
Theorem deleteProject_removes_the_first_project
  hashSync compareSync env auth userId userId' projectId projectId' s :
  serve hashSync compareSync env (mkRequest auth (DeleteProject userId projectId)) s
  = serve hashSync compareSync env (mkRequest auth (DeleteProject userId' projectId')) s
  /\ storeAfter
       (serve hashSync compareSync env
          (mkRequest auth (DeleteProject userId projectId)) s)
     = (if (readyState s =? 1)%nat && authenticated auth s
        then setProjects (tl (projects s)) s else s).
Proof.
  split; [reflexivity|].
  unfold serve, storeAfter, requireConnection, bind, getDb. simpl.
  destruct (readyState s =? 1)%nat; simpl; [|reflexivity].
  unfold handle; simpl. rewrite authenticateUser_spec.
  destruct (authenticated auth s); simpl; [|reflexivity].
  rewrite deleteProject_run. destruct (projects s) eqn:E; simpl; [|reflexivity].
  destruct s; simpl in *; subst; reflexivity.
Qed.

Lemma deleteGuest_run (userId projectId guestId : string) (s : Store) :
  deleteGuest userId projectId guestId (mkWorld s None) =
  match guests s with
  | [] => (Ok tt, mkWorld s (Some (mkResponse 404
             (VObj [("response", VStr "Guest not found"); ("success", VBool false)]))))
  | _ :: rest => (Ok tt, mkWorld (setGuests rest s) (Some (mkResponse 200
             (VObj [("response", VStr "Guest has been deleted");
                    ("success", VBool true)]))))
  end.
Proof.
  unfold deleteGuest. run. destruct (guests s); reflexivity.
Qed.

(** X22: remove-guest never touches a project.  For every store, token and
    path, after the request every project, with its guest list, is as it was,
    and so are the users; what the handler deletes, once past the
    middlewares, is the first document of the separate guests collection,
    whatever the three ids of the path are. *)
Theorem deleteGuest_never_touches_a_project
  hashSync compareSync env auth userId projectId guestId s :
  let r := serve hashSync compareSync env
             (mkRequest auth (DeleteGuest userId projectId guestId)) s in
  projects (storeAfter r) = projects s
  /\ users (storeAfter r) = users s
  /\ guests (storeAfter r)
     = (if (readyState s =? 1)%nat && authenticated auth s
        then tl (guests s) else guests s).
Proof.
  unfold serve, storeAfter, requireConnection, bind, getDb. simpl.
  destruct (readyState s =? 1)%nat; simpl; [|repeat split].
  unfold handle; simpl. rewrite authenticateUser_spec.
  destruct (authenticated auth s); simpl; [|repeat split].
  rewrite deleteGuest_run. destruct (guests s) eqn:E; simpl; rewrite ?E; repeat split.
Qed.

(** X23: the project board greets every [userId] that reaches it.  Express
    hands GET /themes/project-board to the theme lookup, registered first;
    for every other [userId] of the path, the id of a user or not, once the
    token is some stored user's the answer is 200 "Welcome back": the lookup
    by [userId] has its path dropped and finds the user the token check has
    just found.  The branches that send 401 or nothing are not reached. *)
Theorem projectBoard_welcomes_every_userId_that_reaches_it
  hashSync compareSync env auth userId s :
  reachesProjectBoard userId = true ->
  readyState s = 1 ->
  authenticated auth s = true ->
  serve hashSync compareSync env (mkRequest auth (GetProjectBoard userId)) s
  = (Ok tt, mkWorld s (Some (mkResponse 200
       (VObj [("response", VStr "Welcome back"); ("success", VBool true)])))).
Proof.
  intros _ R A. unfold serve. rewrite requireConnection_up by exact R.
  unfold handle; cbv beta iota delta [route]. rewrite authenticateUser_spec, A.
  unfold projectBoard. run. rewrite find_any.
  destruct (authenticated_nonempty _ _ A) as (u & l & E). rewrite E. reflexivity.
Qed.

Lemma projectBoard_welcomes_every_userId_that_reaches_it_witness :
  serve demoHashSync demoCompareSync demoEnv
    (mkRequest (Some "token-of-alice") (GetProjectBoard "nobody")) demoStore
  = (Ok tt, mkWorld demoStore (Some (mkResponse 200
       (VObj [("response", VStr "Welcome back"); ("success", VBool true)])))).
Proof.
  apply (projectBoard_welcomes_every_userId_that_reaches_it demoHashSync
           demoCompareSync demoEnv (Some "token-of-alice") "nobody" demoStore);
    reflexivity.
Defined.

Lemma find_id_none (o : ObjectId) (l : list Project.t) :
  (forall q, In q l -> Project._id q <> o) ->
  List.find (fun q => o =? Project._id q) l = None.
Proof.
  induction l as [|a l IH]; simpl; intros N; [reflexivity|].
  destruct (o =? Project._id a) eqn:Q.
  - apply String.eqb_eq in Q. exfalso. apply (N a); auto.
  - apply IH. intros q I. apply N. now right.
Qed.

(** X24: add-guest appends to the project with the path's id.  For an
    existing project id and a request that passes the middlewares, one guest
    record, with the name trimmed, is added at the end of that project's guest
    list; the project keeps its place and its other fields, and nothing else
    in the store changes. *)
Theorem addGuest_appends_one_guest hashSync compareSync env auth userId projectId o p
  guestName phone s :
  readyState s = 1 ->
  authenticated auth s = true ->
  castObjectId projectId = Some o ->
  List.find (fun q => o =? Project._id q) (projects s) = Some p ->
  exists before after,
    projects s = (before ++ p :: after)%list
    /\ (forall q, In q before -> Project._id q <> o)
    /\ storeAfter
         (serve hashSync compareSync env
            (mkRequest auth (PostAddGuest userId projectId guestName phone)) s)
       = setProjects
           (before
              ++ withGuestList
                   (Project.guestList p
                      ++ [Guest.mk (newId env) (option_map trim guestName) phone]) p
              :: after)%list s.
Proof.
  intros R A C F.
  assert (H : hd_error (projects s) <> None).
  { destruct (projects s); simpl in *; congruence. }
  destruct (updateFirst_split _ _ _ F) as (before & after & E & Hb & U).
  exists before, after. split; [exact E|]. split.
  { intros q I Eq. specialize (Hb q I). simpl in Hb.
    rewrite Eq, String.eqb_refl in Hb. discriminate. }
  unfold serve. rewrite requireConnection_up by exact R.
  unfold handle; cbv beta iota delta [route].
  rewrite authenticateUser_spec, A, addGuest_run, C, F.
  destruct (hd_error (projects s)); [|congruence].
  rewrite U. reflexivity.
Qed.

Lemma addGuest_appends_one_guest_witness :
  exists before after,
    projects demoStore = (before ++ party :: after)%list
    /\ (forall q, In q before -> Project._id q <> Project._id party)
    /\ storeAfter
         (serve demoHashSync demoCompareSync demoEnv
            (mkRequest (Some "token-of-bob")
               (PostAddGuest (User._id bob) (Project._id party)
                  (Some " Sam ") (Some 5551234%Z))) demoStore)
       = setProjects
           (before
              ++ withGuestList
                   (Project.guestList party
                      ++ [Guest.mk (newId demoEnv) (option_map trim (Some " Sam "))
                            (Some 5551234%Z)]) party
              :: after)%list demoStore.
Proof.
  apply (addGuest_appends_one_guest demoHashSync demoCompareSync demoEnv
           (Some "token-of-bob") (User._id bob) (Project._id party)
           (Project._id party) party (Some " Sam ") (Some 5551234%Z) demoStore);
    reflexivity.
Defined.

(** X25: an id that no project has is reported as a success.  When the store
    holds projects but none with the path's id, add-guest is answered 200
    "Guest added" and the field update 200 "Updated", both with [data: null],
    and neither changes anything: the "Could not update" branch follows a
    lookup that finds any project at all. *)
Theorem unknown_project_id_reports_success
  hashSync compareSync env auth userId projectId o guestName phone name due_date s :
  readyState s = 1 ->
  authenticated auth s = true ->
  castObjectId projectId = Some o ->
  projects s <> [] ->
  (forall q, In q (projects s) -> Project._id q <> o) ->
  serve hashSync compareSync env
    (mkRequest auth (PostAddGuest userId projectId guestName phone)) s
  = (Ok tt, mkWorld s (Some (mkResponse 200
       (VObj [("response", VStr "Guest added"); ("data", VNull)]))))
  /\ (let r := serve hashSync compareSync env
                 (mkRequest auth (PatchProject userId projectId name due_date)) s in
      sent r = Some (mkResponse 200
                       (VObj [("response", VStr "Updated"); ("data", VNull)]))
      /\ storeAfter r = s).
Proof.
  intros R A C NE N. unfold serve, sent, storeAfter.
  rewrite !requireConnection_up by exact R.
  unfold handle; cbv beta iota delta [route].
  rewrite authenticateUser_spec, A, addGuest_run, changeProject_run, C,
    (find_id_none _ _ N).
  destruct (projects s); [congruence|]. split; [reflexivity|]. split; reflexivity.
Qed.

Lemma unknown_project_id_reports_success_witness :
  serve demoHashSync demoCompareSync demoEnv
    (mkRequest (Some "token-of-bob")
       (PostAddGuest (User._id bob) "ffffffffffffffffffffffff" (Some "Sam") None))
    demoStore
  = (Ok tt, mkWorld demoStore (Some (mkResponse 200
       (VObj [("response", VStr "Guest added"); ("data", VNull)]))))
  /\ (let r := serve demoHashSync demoCompareSync demoEnv
                 (mkRequest (Some "token-of-bob")
                    (PatchProject (User._id bob) "ffffffffffffffffffffffff"
                       (Some "Garden Party") None)) demoStore in
      sent r = Some (mkResponse 200
                       (VObj [("response", VStr "Updated"); ("data", VNull)]))
      /\ storeAfter r = demoStore).
Proof.
  apply (unknown_project_id_reports_success demoHashSync demoCompareSync demoEnv
           (Some "token-of-bob") (User._id bob) "ffffffffffffffffffffffff"
           "ffffffffffffffffffffffff" (Some "Sam") None (Some "Garden Party") None
           demoStore);
    try reflexivity.
  - simpl. discriminate.
  - intros q [<-|[]]. simpl. discriminate.
Defined.

(** ** Tokens over the life of the store *)


